(** * crypto-dashboard: the chat query pipeline

    A shallow embedding of the backend services
    [services/chat.service.ts] (parseQuery and its handlers),
    [services/coingecko.service.ts] (retry, fetchCoinHistory, searchCoin) and
    [services/cache.ts] (getCached, setCached, getCacheKey, CACHE_TTL),
    together with the properties of the query classification, data
    resolution and cache/fallback pipeline that they implement.

    Conventions of the embedding:
    - a JavaScript string is a [string] of 8-bit characters; case mapping,
      white space and line terminators are those of the ASCII range, and
      characters above 127 are carried along unchanged;
    - a JavaScript number is an IEEE 754 binary64 value, [spec_float] with
      the operations of [SpecFloat] at precision 53;
    - an [async] function is a computation in the monad [M]: it reads and
      updates the [World] (database, cache store, provider, clock, trace of
      outbound calls) and either returns or throws;
    - [console.log] and [console.error] are not modelled. *)

From Stdlib Require Import ZArith List String Ascii Bool Lia.
From Stdlib Require Import SpecFloat Sorted.
From stdpp Require Import base option gmap strings.
Import ListNotations.

Local Open Scope string_scope.
Local Open Scope Z_scope.

(* ===================================================================== *)
(** * JavaScript strings *)
(* ===================================================================== *)

Module JsString.

Definition chars (s : string) : list ascii := list_ascii_of_string s.
Definition ofChars (l : list ascii) : string := string_of_list_ascii l.

Definition code (c : ascii) : N := N_of_ascii c.

Definition isUpper (c : ascii) : bool := ((65 <=? code c) && (code c <=? 90))%N.
Definition isLower (c : ascii) : bool := ((97 <=? code c) && (code c <=? 122))%N.
Definition isDigit (c : ascii) : bool := ((48 <=? code c) && (code c <=? 57))%N.

Definition lowerChar (c : ascii) : ascii :=
  if isUpper c then ascii_of_N (code c + 32) else c.
Definition upperChar (c : ascii) : ascii :=
  if isLower c then ascii_of_N (code c - 32) else c.

(** [String.prototype.toLowerCase] / [toUpperCase]. *)
Definition toLowerCase (s : string) : string := ofChars (map lowerChar (chars s)).
Definition toUpperCase (s : string) : string := ofChars (map upperChar (chars s)).

(** White space stripped by [trim]: TAB, LF, VT, FF, CR and SPACE. *)
Definition isSpace (c : ascii) : bool :=
  (((9 <=? code c) && (code c <=? 13)) || (code c =? 32))%N.

(** Line terminators, which [.] does not match. *)
Definition isLineTerminator (c : ascii) : bool :=
  ((code c =? 10) || (code c =? 13))%N.

Fixpoint dropSpaces (l : list ascii) : list ascii :=
  match l with
  | c :: l' => if isSpace c then dropSpaces l' else l
  | [] => []
  end.

Definition trimChars (l : list ascii) : list ascii :=
  rev (dropSpaces (rev (dropSpaces l))).

(** [String.prototype.trim]. *)
Definition trim (s : string) : string := ofChars (trimChars (chars s)).

Fixpoint isPrefix (p l : list ascii) : bool :=
  match p, l with
  | [], _ => true
  | a :: p', b :: l' => Ascii.eqb a b && isPrefix p' l'
  | _ :: _, [] => false
  end.

Fixpoint includesChars (l p : list ascii) : bool :=
  isPrefix p l || match l with [] => false | _ :: l' => includesChars l' p end.

(** [String.prototype.includes]. *)
Definition includes (s p : string) : bool := includesChars (chars s) (chars p).

(** [Array.prototype.join] on strings. *)
Fixpoint join (sep : string) (l : list string) : string :=
  match l with
  | [] => ""
  | [x] => x
  | x :: l' => x ++ sep ++ join sep l'
  end.

(** A string is falsy exactly when it is empty. *)
Definition truthy (s : string) : bool := negb (String.eqb s "").

End JsString.

(* ===================================================================== *)
(** * Regular expressions

    The fragment of ECMAScript patterns that [parseQuery] uses, with the
    backtracking semantics of [RegExp.prototype.exec]: alternatives are
    tried left to right, greedy quantifiers take the longest repetition
    first, lazy ones the shortest, and the match starts at the leftmost
    position where an attempt succeeds. All the patterns carry the [i]
    flag, so literal characters are compared up to ASCII case. *)
(* ===================================================================== *)

Module Regex.
Import JsString.

Inductive regex : Type :=
| Empty
| Lit (c : ascii)                (* a pattern character *)
| Dot                            (* .   *)
| Digit                          (* \d  *)
| EndOfInput                     (* $   *)
| Cat (r1 r2 : regex)
| Alt (r1 r2 : regex)            (* r1|r2 *)
| Opt (r : regex)                (* r?  *)
| Plus (r : regex)               (* r+  *)
| PlusLazy (r : regex)           (* r+? *)
| Group (i : nat) (r : regex).   (* i-th capturing group *)

(** The literal text [s] as a pattern. *)
Definition Str (s : string) : regex :=
  fold_right (fun c r => Cat (Lit c) r) Empty (chars s).

(** Capture groups that took part in the match, latest first. *)
Definition captures := list (nat * list ascii).

Fixpoint capture (i : nat) (c : captures) : option (list ascii) :=
  match c with
  | [] => None
  | (j, t) :: c' => if Nat.eqb i j then Some t else capture i c'
  end.

Definition cont := list ascii -> captures -> option captures.

Definition orElse (a : option captures) (b : unit -> option captures) : option captures :=
  match a with
  | Some x => Some x
  | None => b tt
  end.

Definition consumed (s s' : list ascii) : list ascii :=
  firstn (length s - length s') s.

(** [rmatch r s c k]: match [r] at the head of [s], then continue with
    [k] on the rest; [None] means that every alternative failed. *)
Fixpoint rmatch (r : regex) (s : list ascii) (c : captures) (k : cont)
  {struct r} : option captures :=
  match r with
  | Empty => k s c
  | Lit a =>
      match s with
      | x :: s' => if Ascii.eqb (upperChar a) (upperChar x) then k s' c else None
      | [] => None
      end
  | Dot =>
      match s with
      | x :: s' => if isLineTerminator x then None else k s' c
      | [] => None
      end
  | Digit =>
      match s with
      | x :: s' => if isDigit x then k s' c else None
      | [] => None
      end
  | EndOfInput =>
      match s with
      | [] => k s c
      | _ :: _ => None
      end
  | Cat r1 r2 => rmatch r1 s c (fun s' c' => rmatch r2 s' c' k)
  | Alt r1 r2 => orElse (rmatch r1 s c k) (fun _ => rmatch r2 s c k)
  | Opt r1 => orElse (rmatch r1 s c k) (fun _ => k s c)
  | Plus r1 =>
      (fix more (fuel : nat) (s : list ascii) (c : captures) : option captures :=
         match fuel with
         | O => None
         | S fuel' =>
             rmatch r1 s c
               (fun s' c' => orElse (more fuel' s' c') (fun _ => k s' c'))
         end) (S (length s)) s c
  | PlusLazy r1 =>
      (fix more (fuel : nat) (s : list ascii) (c : captures) : option captures :=
         match fuel with
         | O => None
         | S fuel' =>
             rmatch r1 s c
               (fun s' c' => orElse (k s' c') (fun _ => more fuel' s' c'))
         end) (S (length s)) s c
  | Group i r1 =>
      rmatch r1 s c (fun s' c' => k s' ((i, consumed s s') :: c'))
  end.

Definition matchAt (r : regex) (s : list ascii) : option captures :=
  rmatch r s [] (fun _ c => Some c).

(** Try every start position, leftmost first. *)
Fixpoint search (r : regex) (s : list ascii) : option captures :=
  match matchAt r s with
  | Some c => Some c
  | None =>
      match s with
      | [] => None
      | _ :: s' => search r s'
      end
  end.

(** [str.match(re)] for a pattern without the [g] flag: the groups of
    the first match, or [None] for [null]. *)
Definition exec (r : regex) (s : string) : option captures := search r (chars s).

(** [m[i]]: the text of group [i], [None] when it is [undefined]. *)
Definition group (i : nat) (m : captures) : option string :=
  option_map ofChars (capture i m).

End Regex.

(* ===================================================================== *)
(** * JavaScript numbers

    Binary64 values with round-to-nearest-even arithmetic, the numeric
    parsers [parseInt] and [parseFloat], and the three renderings the
    services use: [Number::toString], [toFixed(2)] and
    [toLocaleString("en-US", {minimumFractionDigits: 2,
    maximumFractionDigits: 2})]. *)
(* ===================================================================== *)

Module JsNumber.
Import JsString.

Definition prec : Z := 53.
Definition emax : Z := 1024.

Definition number : Type := spec_float.

Definition NaN : number := S754_nan.
Definition Infinity : number := S754_infinity false.
Definition zero : number := S754_zero false.

Definition add : number -> number -> number := SFadd prec emax.
Definition sub : number -> number -> number := SFsub prec emax.
Definition mul : number -> number -> number := SFmul prec emax.
Definition div : number -> number -> number := SFdiv prec emax.

(** [x >= y]; false as soon as one side is NaN. *)
Definition geb (x y : number) : bool := SFleb y x.

Definition isFinite (x : number) : bool :=
  match x with
  | S754_zero _ | S754_finite _ _ _ => true
  | S754_infinity _ | S754_nan => false
  end.

Definition isZero (x : number) : bool :=
  match x with
  | S754_zero _ => true
  | _ => false
  end.

(** A number is falsy when it is [0], [-0] or [NaN]. *)
Definition truthy (x : number) : bool :=
  match x with
  | S754_zero _ | S754_nan => false
  | _ => true
  end.

(** The number nearest to the integer [z]. *)
Definition ofZ (z : Z) : number := binary_normalize prec emax z 0 false.

(** The number nearest to [m * 10^e], with the sign [neg]. *)
Definition ofDecimal (neg : bool) (m : Z) (e : Z) : number :=
  match m with
  | Zpos p =>
      if 0 <=? e then binary_round prec emax neg (p * Z.to_pos (10 ^ e)) 0
      else
        let '(q, e', l) := SFdiv_core_binary prec emax (Zpos p) 0 (10 ^ (- e)) 0 in
        binary_round_aux prec emax neg q e' l
  | _ => S754_zero neg
  end.

(** The integer part of a number, for the finite ones. *)
Definition truncate (x : number) : option Z :=
  match x with
  | S754_zero _ => Some 0
  | S754_finite s m e =>
      let a := if 0 <=? e then Zpos m * 2 ^ e else Zpos m / 2 ^ (- e) in
      Some (if s then - a else a)
  | _ => None
  end.

(** ** Parsing *)

Definition digitVal (c : ascii) : Z := Z.of_N (code c) - 48.

Fixpoint spanDigits (l : list ascii) : list ascii * list ascii :=
  match l with
  | c :: l' =>
      if isDigit c then let '(d, r) := spanDigits l' in (c :: d, r) else ([], l)
  | [] => ([], [])
  end.

Definition digitsVal (d : list ascii) : Z :=
  fold_left (fun acc c => 10 * acc + digitVal c) d 0.

Definition spanSign (l : list ascii) : bool * list ascii :=
  match l with
  | "-"%char :: l' => (true, l')
  | "+"%char :: l' => (false, l')
  | _ => (false, l)
  end.

(** [parseInt(s, 10)]. *)
Definition parseInt (s : string) : number :=
  let '(neg, l) := spanSign (dropSpaces (chars s)) in
  match spanDigits l with
  | ([], _) => NaN
  | (d, _) => ofDecimal neg (digitsVal d) 0
  end.

(** The exponent part [e[+-]ddd] of a decimal literal, 0 when absent. *)
Definition spanExponent (l : list ascii) : Z :=
  match l with
  | c :: l' =>
      if Ascii.eqb (upperChar c) "E"%char then
        let '(neg, l'') := spanSign l' in
        match spanDigits l'' with
        | ([], _) => 0
        | (d, _) => if neg then - digitsVal d else digitsVal d
        end
      else 0
  | [] => 0
  end.

(** [parseFloat(s)]: the longest prefix that is a decimal literal. *)
Definition parseFloat (s : string) : number :=
  let '(neg, l) := spanSign (dropSpaces (chars s)) in
  if isPrefix (chars "Infinity") l then S754_infinity neg
  else
    let '(ip, l1) := spanDigits l in
    let '(fp, l2) :=
      match l1 with
      | "."%char :: l1' =>
          let '(fp, l2) := spanDigits l1' in
          match ip, fp with
          | [], [] => ([], l1)
          | _, _ => (fp, l2)
          end
      | _ => ([], l1)
      end in
    match ip, fp with
    | [], [] => NaN
    | _, _ =>
        ofDecimal neg (digitsVal (ip ++ fp)%list)
          (spanExponent l2 - Z.of_nat (length fp))
    end.

(** ** Printing *)

Definition digitChar (d : Z) : ascii := ascii_of_N (Z.to_N d + 48).

Fixpoint decimalFuel (fuel : nat) (n : Z) (acc : list ascii) : list ascii :=
  match fuel with
  | O => acc
  | S fuel' =>
      if n <? 10 then digitChar n :: acc
      else decimalFuel fuel' (n / 10) (digitChar (n mod 10) :: acc)
  end.

(** The decimal digits of a natural number, most significant first. *)
Definition decimal (n : Z) : list ascii :=
  decimalFuel (S (Z.to_nat (Z.log2 n))) n [].

Definition zeros (n : Z) : list ascii := repeat "0"%char (Z.to_nat n).

(** [|x| * 10^2] rounded to an integer, ties away from zero. *)
Definition hundredths (m : positive) (e : Z) : Z :=
  if 0 <=? e then Zpos m * 2 ^ e * 100
  else (2 * (Zpos m * 100) + 2 ^ (- e)) / (2 * 2 ^ (- e)).

Definition fixed2 (n : Z) : list ascii * list ascii :=
  let d := decimal n in
  let d := (zeros (3 - Z.of_nat (length d)) ++ d)%list in
  (firstn (length d - 2) d, skipn (length d - 2) d).

(** Digit grouping of the integer part, [1234567] as [1,234,567]. *)
Fixpoint groupRev (l : list ascii) (i : nat) : list ascii :=
  match l with
  | [] => []
  | c :: l' =>
      match i, l' with
      | 2%nat, _ :: _ => c :: ","%char :: groupRev l' 0
      | _, _ => c :: groupRev l' (S i)
      end
  end.

Definition grouped (l : list ascii) : list ascii := rev (groupRev (rev l) 0).

Definition signText (s : bool) : string := if s then "-" else "".

(** The infinity sign U+221E in UTF-8. *)
Definition infinitySign : string :=
  String (ascii_of_N 226) (String (ascii_of_N 136) (String (ascii_of_N 158) "")).

(** [x.toLocaleString("en-US", {minimumFractionDigits: 2,
    maximumFractionDigits: 2})], rounding the exact value half away
    from zero as ECMA-402 prescribes. *)
Definition toLocaleString (x : number) : string :=
  match x with
  | S754_nan => "NaN"
  | S754_infinity s => signText s ++ infinitySign
  | S754_zero s => signText s ++ "0.00"
  | S754_finite s m e =>
      let '(ip, fp) := fixed2 (hundredths m e) in
      signText s ++ ofChars (grouped ip) ++ "." ++ ofChars fp
  end.

(** *** [Number::toString]

    For a positive finite [x = m * 2^e] the digits are those of the
    shortest decimal [s * 10^(n-k)], with [k] digits, that reads back as
    [x]; among several, the one nearest to [x]. *)

(** [x] as the fraction [num / den]. *)
Definition fraction (m : positive) (e : Z) : Z * Z :=
  if 0 <=? e then (Zpos m * 2 ^ e, 1) else (Zpos m, 2 ^ (- e)).

Fixpoint leadingZeros (fuel : nat) (num den : Z) (j : Z) : Z :=
  match fuel with
  | O => j
  | S fuel' =>
      if num * 10 ^ (j + 1) <? den then leadingZeros fuel' num den (j + 1) else j
  end.

(** The [n] with [10^(n-1) <= num/den < 10^n]. *)
Definition magnitude10 (num den : Z) : Z :=
  if den <=? num then Z.of_nat (length (decimal (num / den)))
  else - leadingZeros 400 num den 0.

(** [num/den] as [q + r/d] in units of [10^p]. *)
Definition scaled (num den p : Z) : Z * Z * Z :=
  let n' := if 0 <=? p then num else num * 10 ^ (- p) in
  let d' := if 0 <=? p then den * 10 ^ p else den in
  (n' / d', n' mod d', d').

Definition readsBack (x : number) (s p : Z) : bool :=
  match SFcompare (ofDecimal false s p) x with
  | Some Eq => true
  | _ => false
  end.

(** The candidate with [k] digits, when one reads back as [x]. *)
Definition shortestAt (x : number) (num den n k : Z) : option (Z * Z) :=
  let p := n - k in
  let '(q, r, d) := scaled num den p in
  let lo := readsBack x q p in
  let hi := readsBack x (q + 1) p in
  let preferHi :=
    match 2 * r ?= d with
    | Gt => true
    | Eq => Z.odd q
    | Lt => false
    end in
  match lo, hi with
  | true, true => Some (if preferHi then q + 1 else q, p)
  | true, false => Some (q, p)
  | false, true => Some (q + 1, p)
  | false, false => None
  end.

Fixpoint shortestFrom (fuel : nat) (x : number) (num den n k : Z) : Z * Z :=
  match fuel with
  | O => (fst (fst (scaled num den (n - k))), n - k)
  | S fuel' =>
      match shortestAt x num den n k with
      | Some sp => sp
      | None => shortestFrom fuel' x num den n (k + 1)
      end
  end.

Fixpoint stripZerosRev (l : list ascii) : list ascii :=
  match l with
  | "0"%char :: l' => stripZerosRev l'
  | _ => l
  end.

Definition exponentText (e : Z) : string :=
  (if e <? 0 then "-" else "+") ++ ofChars (decimal (Z.abs e)).

Definition toStringPositive (m : positive) (e : Z) : string :=
  let x := S754_finite false m e in
  let '(num, den) := fraction m e in
  let '(s, p) := shortestFrom 17 x num den (magnitude10 num den) 1 in
  let all := decimal s in
  let n := Z.of_nat (length all) + p in
  let ds := rev (stripZerosRev (rev all)) in
  let k := Z.of_nat (length ds) in
  if (k <=? n) && (n <=? 21) then ofChars (ds ++ zeros (n - k))%list
  else if (0 <? n) && (n <=? 21) then
    ofChars (firstn (Z.to_nat n) ds) ++ "." ++ ofChars (skipn (Z.to_nat n) ds)
  else if (-6 <? n) && (n <=? 0) then
    "0." ++ ofChars (zeros (- n) ++ ds)%list
  else if k =? 1 then ofChars ds ++ "e" ++ exponentText (n - 1)
  else
    ofChars (firstn 1 ds) ++ "." ++ ofChars (skipn 1 ds) ++ "e" ++ exponentText (n - 1).

(** [String(x)], as in a template literal. *)
Definition toString (x : number) : string :=
  match x with
  | S754_nan => "NaN"
  | S754_zero _ => "0"
  | S754_infinity s => signText s ++ "Infinity"
  | S754_finite s m e => signText s ++ toStringPositive m e
  end.

(** [x.toFixed(2)]. *)
Definition toFixed (x : number) : string :=
  match x with
  | S754_nan | S754_infinity _ => toString x
  | S754_zero _ => "0.00"
  | S754_finite s m e =>
      if geb (S754_finite false m e) (ofDecimal false 1 21) then toString x
      else
        let '(ip, fp) := fixed2 (hundredths m e) in
        signText s ++ ofChars ip ++ "." ++ ofChars fp
  end.

End JsNumber.

(* ===================================================================== *)
(** * Data model *)
(* ===================================================================== *)

Import JsNumber.

(** A row of the [coins] table ([db/schema.ts]); nullable columns are
    options, [decimal] columns arrive as strings and the [bigint] column
    in [mode: "number"]. *)
Module coins.
Record row : Type := {
  id : Z;
  coingeckoId : string;
  symbol : string;
  name : string;
  currentPrice : option string;
  marketCap : option Z;
  priceChange24h : option string;
  volume24h : option string;
  lastUpdated : option Z
}.
End coins.

(** A row of the [historical_prices] table; timestamps are milliseconds
    since the epoch. *)
Module historicalPrices.
Record row : Type := {
  id : Z;
  coinId : string;
  timestamp : Z;
  price : string
}.
End historicalPrices.

(** [interface CoinMarketData]: an element of the provider's market
    listing. The provider sends [null] for figures it does not have. *)
Module CoinMarketData.
Record t : Type := {
  id : string;
  symbol : string;
  name : string;
  current_price : option number;
  market_cap : option number;
  price_change_percentage_24h : option number;
  total_volume : option number;
  last_updated : string
}.
End CoinMarketData.

(** An element of the provider's coin index, [/coins/list]. *)
Module CoinIndex.
Record t : Type := {
  id : string;
  symbol : string;
  name : string
}.
End CoinIndex.

(** [interface HistoricalPricePoint]. *)
Record HistoricalPricePoint : Type := {
  timestamp : number;
  price : number
}.

(** ** The provider *)

Inductive Request : Type :=
| GetCoinsList                                   (* /coins/list *)
| GetCoinsMarkets (ids : string)                 (* /coins/markets?ids= *)
| GetMarketChart (coinId : string) (days : number). (* /coins/{id}/market_chart *)

(** A 2xx body of one of the three shapes, or a failure: [Failed (Some
    s)] is a response with status [s], [Failed None] no response at all.
    A body that has the shape of another endpoint counts as malformed:
    the caller's first use of it throws a [TypeError]. *)
Inductive Response : Type :=
| CoinsList (l : list CoinIndex.t)
| Markets (l : list CoinMarketData.t)
| MarketChart (prices : option (list (number * number)))
| Failed (status : option Z).

(** ** Errors *)

Inductive error : Type :=
| AxiosError (status : option Z)   (* [error.response?.status] *)
| TypeError
| RangeError
| DbError
| RedisError
| Error (message : string).

(** ** The world *)

Inductive Event : Type :=
| Http (r : Request)
| Slept (ms : Z).

(** A value held by the cache store: the JSON of a market record or of
    [null], and the instant at which the key expires. *)
Record CacheEntry : Type := {
  value : option CoinMarketData.t;
  expiresAt : Z
}.

Record World : Type := {
  (** the local store *)
  coinsTable : list coins.row;
  historicalPricesTable : list historicalPrices.row;
  dbAvailable : bool;
  (** the cache store; [None] when the environment does not configure it *)
  redis : option (gmap string CacheEntry);
  redisAvailable : bool;
  (** the provider's answer to a request, given how many were made before *)
  provider : nat -> Request -> Response;
  (** milliseconds since the epoch *)
  clock : Z;
  (** outbound requests and sleeps, oldest first *)
  trace : list Event
}.

Definition withTrace (w : World) (t : list Event) : World :=
  {| coinsTable := coinsTable w; historicalPricesTable := historicalPricesTable w;
     dbAvailable := dbAvailable w; redis := redis w;
     redisAvailable := redisAvailable w; provider := provider w;
     clock := clock w; trace := t |}.

Definition withClock (w : World) (c : Z) : World :=
  {| coinsTable := coinsTable w; historicalPricesTable := historicalPricesTable w;
     dbAvailable := dbAvailable w; redis := redis w;
     redisAvailable := redisAvailable w; provider := provider w;
     clock := c; trace := trace w |}.

Definition withRedis (w : World) (r : option (gmap string CacheEntry)) : World :=
  {| coinsTable := coinsTable w; historicalPricesTable := historicalPricesTable w;
     dbAvailable := dbAvailable w; redis := r;
     redisAvailable := redisAvailable w; provider := provider w;
     clock := clock w; trace := trace w |}.

Definition isHttp (e : Event) : bool :=
  match e with
  | Http _ => true
  | Slept _ => false
  end.

(** The requests sent so far, and the sleeps taken so far. *)
Definition requests (w : World) : list Request :=
  flat_map (fun e => match e with Http r => [r] | Slept _ => [] end) (trace w).

Definition sleeps (w : World) : list Z :=
  flat_map (fun e => match e with Slept ms => [ms] | Http _ => [] end) (trace w).

(* ===================================================================== *)
(** * Asynchronous computations *)
(* ===================================================================== *)

Inductive outcome (A : Type) : Type :=
| Ok (a : A)
| Throw (e : error).
Arguments Ok {A} a.
Arguments Throw {A} e.

Definition M (A : Type) : Type := World -> outcome A * World.

Definition ret {A} (a : A) : M A := fun w => (Ok a, w).

Definition throw {A} (e : error) : M A := fun w => (Throw e, w).

Definition bind {A B} (m : M A) (k : A -> M B) : M B :=
  fun w =>
    match m w with
    | (Ok a, w') => k a w'
    | (Throw e, w') => (Throw e, w')
    end.

(** [try { m } catch (error) { handler error }]: what [m] did to the
    world before it threw stays done. *)
Definition tryCatch {A} (m : M A) (handler : error -> M A) : M A :=
  fun w =>
    match m w with
    | (Ok a, w') => (Ok a, w')
    | (Throw e, w') => handler e w'
    end.

Notation "x <- m ;; k" := (bind m (fun x => k))
  (at level 100, m at next level, right associativity).
Notation "m ;;; k" := (bind m (fun _ => k))
  (at level 100, right associativity).

(** [new Date()]: the current instant. *)
Definition currentTime : M Z := fun w => (Ok (clock w), w).

(** [await sleep(ms)]. *)
Definition sleep (ms : Z) : M unit :=
  fun w => (Ok tt, withClock (withTrace w (trace w ++ [Slept ms])) (clock w + ms)).

(** [await axios.get(...)]: a failure response rejects with an
    [AxiosError]. *)
Definition axios_get (r : Request) : M Response :=
  fun w =>
    let w' := withTrace w (trace w ++ [Http r]) in
    match provider w (length (requests w)) r with
    | Failed status => (Throw (AxiosError status), w')
    | resp => (Ok resp, w')
    end.

(* ===================================================================== *)
(** * services/cache.ts *)
(* ===================================================================== *)

Module CACHE_TTL.
Definition COINS : Z := 60.
Definition HISTORY : Z := 300.
Definition SEARCH : Z := 3600.
End CACHE_TTL.

(** [redis.get(key)]: the value under [key] unless the key is missing or
    expired, in which case [null]. A stored [null] reads as [null] too. *)
Definition redis_get (store : gmap string CacheEntry) (key : string)
  : M (option CoinMarketData.t) :=
  fun w =>
    if redisAvailable w then
      match store !! key with
      | Some e => (Ok (if clock w <? expiresAt e then value e else None), w)
      | None => (Ok None, w)
      end
    else (Throw RedisError, w).

(** [redis.setex(key, ttl, value)]; the store refuses a time to live
    that is not positive. *)
Definition redis_setex (store : gmap string CacheEntry) (key : string) (ttl : Z)
  (v : option CoinMarketData.t) : M unit :=
  fun w =>
    if redisAvailable w && (0 <? ttl) then
      (Ok tt,
       withRedis w
         (Some (<[key := {| value := v; expiresAt := clock w + ttl * 1000 |}]> store)))
    else (Throw RedisError, w).

Definition getCached (key : string) : M (option CoinMarketData.t) :=
  fun w =>
    match redis w with
    | None => (Ok None, w)
    | Some store =>
        tryCatch
          (data <- redis_get store key ;; ret data)
          (fun _ => ret None) w
    end.

Definition setCached (key : string) (v : option CoinMarketData.t) (ttl : Z) : M unit :=
  fun w =>
    match redis w with
    | None => (Ok tt, w)
    | Some store =>
        tryCatch (redis_setex store key ttl v) (fun _ => ret tt) w
    end.

Definition getCacheKey (type : string) (args : list string) : string :=
  "crypto:" ++ type ++ ":" ++ JsString.join ":" args.

(* ===================================================================== *)
(** * services/coingecko.service.ts *)
(* ===================================================================== *)

Definition statusOf (e : error) : option Z :=
  match e with
  | AxiosError status => status
  | _ => None
  end.

Definition is429 (e : error) : bool :=
  match statusOf e with
  | Some s => s =? 429
  | None => false
  end.

(** The [for] loop of [retry], entered at index [i] with [remaining =
    retries - i] iterations to go; leaving the loop reaches the final
    [throw]. *)
Fixpoint retry_loop {A} (fn : M A) (retries : nat) (delay : Z) (i remaining : nat)
  : M A :=
  match remaining with
  | O => throw (Error "Max retries exceeded")
  | S remaining' =>
      tryCatch fn
        (fun error =>
           if negb (is429 error) || Nat.eqb i (retries - 1) then throw error
           else
             let waitTime := delay * 2 ^ Z.of_nat i in
             sleep waitTime ;;;
             retry_loop fn retries delay (S i) remaining')
  end.

Definition retry {A} (fn : M A) (retries : nat) (delay : Z) : M A :=
  retry_loop fn retries delay 0 retries.

Definition retry_default_retries : nat := 3.
Definition retry_default_delay : Z := 10000.

Definition fetchCoinHistory (coinId : string) (days : number)
  : M (list HistoricalPricePoint) :=
  retry
    (response <- axios_get (GetMarketChart coinId days) ;;
     match response with
     | MarketChart data =>
         let prices := match data with Some l => l | None => [] end in
         ret (map (fun '(t, p) => {| timestamp := t; price := p |}) prices)
     | _ => throw TypeError
     end)
    retry_default_retries retry_default_delay.

Definition fetchCoinHistory_default_days : number := ofZ 30.

(** The two predicates handed to [coins.find] by [searchCoin]. *)
Definition exactMatch (lowerQuery : string) (coin : CoinIndex.t) : bool :=
  String.eqb (JsString.toLowerCase (CoinIndex.id coin)) lowerQuery
  || String.eqb (JsString.toLowerCase (CoinIndex.symbol coin)) lowerQuery
  || String.eqb (JsString.toLowerCase (CoinIndex.name coin)) lowerQuery.

Definition partialMatch (lowerQuery : string) (coin : CoinIndex.t) : bool :=
  JsString.includes (JsString.toLowerCase (CoinIndex.name coin)) lowerQuery
  || JsString.includes (JsString.toLowerCase (CoinIndex.symbol coin)) lowerQuery.

Definition findCoin (lowerQuery : string) (l : list CoinIndex.t) : option CoinIndex.t :=
  match List.find (exactMatch lowerQuery) l with
  | Some c => Some c
  | None => List.find (partialMatch lowerQuery) l
  end.

Definition searchCoin (query : string) : M (option CoinMarketData.t) :=
  tryCatch
    (let cacheKey :=
       getCacheKey "search" [JsString.trim (JsString.toLowerCase query)] in
     cached <- getCached cacheKey ;;
     match cached with
     | Some c => ret (Some c)
     | None =>
         response <- axios_get GetCoinsList ;;
         match response with
         | CoinsList coins =>
             let lowerQuery := JsString.trim (JsString.toLowerCase query) in
             match findCoin lowerQuery coins with
             | None =>
                 setCached cacheKey None CACHE_TTL.SEARCH ;;;
                 ret None
             | Some matchedCoin =>
                 marketResponse <-
                   axios_get (GetCoinsMarkets (CoinIndex.id matchedCoin)) ;;
                 match marketResponse with
                 | Markets data =>
                     let result := List.head data in
                     setCached cacheKey result CACHE_TTL.SEARCH ;;;
                     ret result
                 | _ => throw TypeError
                 end
             end
         | _ => throw TypeError
         end
     end)
    (fun _ => ret None).

(* ===================================================================== *)
(** * The local store (drizzle queries of services/chat.service.ts) *)
(* ===================================================================== *)

Section Sorting.
Context {A : Type} (before : A -> A -> bool).

Fixpoint insertSorted (x : A) (l : list A) : list A :=
  match l with
  | [] => [x]
  | y :: l' => if before y x then y :: insertSorted x l' else x :: l
  end.

(** [ORDER BY], rows of equal rank staying in table order. *)
Definition orderBy (l : list A) : list A := fold_right insertSorted [] l.
End Sorting.

(** Every query fails when the database cannot be reached. *)
Definition dbQuery {A} (rows : World -> A) : M A :=
  fun w => if dbAvailable w then (Ok (rows w), w) else (Throw DbError, w).

(** [db.select().from(coins).where(eq(coins.coingeckoId, ident)).limit(1)] *)
Definition selectCoin (ident : string) : M (list coins.row) :=
  dbQuery (fun w =>
    firstn 1 (List.filter (fun c => String.eqb (coins.coingeckoId c) ident) (coinsTable w))).

(** The largest time value of a valid [Date]. *)
Definition maxTime : Z := 8640000000000000.

Definition msPerDay : Z := 86400000.

(** [startDate = new Date(); startDate.setDate(startDate.getDate() - days)]:
    the instant [days] days before now, [None] for an invalid date. Local
    time is taken without daylight-saving shifts. *)
Definition daysAgo (now : Z) (days : number) : option Z :=
  match truncate days with
  | Some d =>
      let t := now - d * msPerDay in
      if Z.abs t <=? maxTime then Some t else None
  | None => None
  end.

(** [db.select().from(historicalPrices)
      .where(and(eq(historicalPrices.coinId, ident),
                 gte(historicalPrices.timestamp, startDate)))
      .orderBy(desc(historicalPrices.timestamp)).limit(100)];
    an invalid [startDate] cannot be sent to the database. *)
Definition selectHistory (ident : string) (startDate : option Z)
  : M (list historicalPrices.row) :=
  match startDate with
  | None => throw RangeError
  | Some floor =>
      dbQuery (fun w =>
        firstn 100
          (orderBy
             (fun a b => historicalPrices.timestamp b <? historicalPrices.timestamp a)
             (List.filter
                (fun h => String.eqb (historicalPrices.coinId h) ident
                          && (floor <=? historicalPrices.timestamp h))
                (historicalPricesTable w))))
  end.

(** [a] comes strictly before [b] under [desc(coins.marketCap)]; the
    database puts the missing values first. *)
Definition marketCapBefore (a b : coins.row) : bool :=
  match coins.marketCap a, coins.marketCap b with
  | None, Some _ => true
  | Some x, Some y => y <? x
  | _, None => false
  end.

(** [db.select().from(coins).orderBy(desc(coins.marketCap)).limit(limit)];
    the database rejects a limit that is not a 64-bit count. *)
Definition selectTopCoins (limit : number) : M (list coins.row) :=
  match truncate limit with
  | Some n =>
      if (0 <=? n) && (n <? 2 ^ 63) then
        dbQuery (fun w => firstn (Z.to_nat n) (orderBy marketCapBefore (coinsTable w)))
      else throw DbError
  | None => throw DbError
  end.

(* ===================================================================== *)
(** * services/chat.service.ts *)
(* ===================================================================== *)

Import Regex.

(** The structured payload that accompanies some answers. *)
Inductive payload : Type :=
| TrendData (coinId coinName : string) (days : number)
    (history : list (Z * number))
| TopCoinsData (topCoins : list coins.row).

Record reply : Type := {
  answer : string;
  data : option payload
}.

Definition say (text : string) : reply := {| answer := text; data := None |}.

Definition nl : string := String (ascii_of_N 10) "".

(** [(.+?)(?:\?|$)]: the tail shared by the five coin patterns, the coin
    name being group [i]. *)
Definition coinTail (i : nat) : regex :=
  Cat (Group i (PlusLazy Dot)) (Alt (Lit "?") EndOfInput).

(** [/(?:what is the )?price of (.+?)(?:\?|$)/i] *)
Definition pricePattern : regex :=
  Cat (Opt (Str "what is the ")) (Cat (Str "price of ") (coinTail 1)).

(** [/(?:show me the )?(\d+)?-?day (?:trend|history) of (.+?)(?:\?|$)/i] *)
Definition trendPattern : regex :=
  Cat (Opt (Str "show me the "))
    (Cat (Opt (Group 1 (Plus Digit)))
       (Cat (Opt (Lit "-"))
          (Cat (Str "day ")
             (Cat (Alt (Str "trend") (Str "history"))
                (Cat (Str " of ") (coinTail 2)))))).

(** [/(?:what is the )?volume of (.+?)(?:\?|$)/i] *)
Definition volumePattern : regex :=
  Cat (Opt (Str "what is the ")) (Cat (Str "volume of ") (coinTail 1)).

(** [/(?:what is the )?(?:24h |24 hour )?change of (.+?)(?:\?|$)/i] *)
Definition changePattern : regex :=
  Cat (Opt (Str "what is the "))
    (Cat (Opt (Alt (Str "24h ") (Str "24 hour ")))
       (Cat (Str "change of ") (coinTail 1))).

(** [/(?:what is the )?market cap(?:italization)? of (.+?)(?:\?|$)/i] *)
Definition marketCapPattern : regex :=
  Cat (Opt (Str "what is the "))
    (Cat (Str "market cap")
       (Cat (Opt (Str "italization")) (Cat (Str " of ") (coinTail 1)))).

(** [/show me top (\d+) coins?/i] *)
Definition topCoinsPattern : regex :=
  Cat (Str "show me top ")
    (Cat (Group 1 (Plus Digit)) (Cat (Str " coin") (Opt (Lit "s")))).

(** [m[i]] for a group that took part in the match. *)
Definition groupText (i : nat) (m : captures) : string :=
  match group i m with
  | Some s => s
  | None => ""
  end.

(** [s || "0"] on a nullable column. *)
Definition orZero (s : option string) : string :=
  match s with
  | Some s => if JsString.truthy s then s else "0"
  | None => "0"
  end.

Definition notFound (coinName : string) : string :=
  "Sorry, I couldn't find information about " ++ coinName
  ++ ". Please check the spelling and try again.".

(** [x.m(...)] on a provider figure: a [TypeError] when it is [null]. *)
Definition deref (x : option number) : M number :=
  match x with
  | Some n => ret n
  | None => throw TypeError
  end.

Definition upperSymbol (s : string) : string := JsString.toUpperCase s.

Definition handlePriceQuery (coinName : string) : M reply :=
  tryCatch
    (coin <- selectCoin (JsString.toLowerCase coinName) ;;
     match coin with
     | c :: _ =>
         let price := parseFloat (orZero (coins.currentPrice c)) in
         ret (say ("The current price of " ++ coins.name c
                   ++ " (" ++ upperSymbol (coins.symbol c) ++ ") is $"
                   ++ toLocaleString price))
     | [] =>
         marketData <- searchCoin coinName ;;
         match marketData with
         | Some md =>
             current_price <- deref (CoinMarketData.current_price md) ;;
             ret (say ("The current price of " ++ CoinMarketData.name md
                       ++ " (" ++ upperSymbol (CoinMarketData.symbol md) ++ ") is $"
                       ++ toLocaleString current_price))
         | None => ret (say (notFound coinName))
         end
     end)
    (fun _ =>
       ret (say "Sorry, I encountered an error while fetching the price. Please try again later.")).

Definition plusSign (x : number) : string :=
  if geb x zero then "+" else "".

Definition handleTrendQuery (coinName : string) (days : number) : M reply :=
  tryCatch
    (coin <- selectCoin (JsString.toLowerCase coinName) ;;
     match coin with
     | [] =>
         marketData <- searchCoin coinName ;;
         match marketData with
         | None => ret (say (notFound coinName))
         | Some md =>
             ret (say ("I found " ++ CoinMarketData.name md
                       ++ ", but I don't have " ++ toString days
                       ++ "-day historical data for it. Please select it from the dashboard to view the chart."))
         end
     | c :: _ =>
         now <- currentTime ;;
         let startDate := daysAgo now days in
         history <- selectHistory (coins.coingeckoId c) startDate ;;
         match history with
         | [] =>
             ret (say ("I found " ++ coins.name c
                       ++ ", but I don't have " ++ toString days
                       ++ "-day historical data for it yet. The data may still be loading."))
         | h0 :: _ =>
             let prices :=
               map (fun h => parseFloat (orZero (Some (historicalPrices.price h)))) history in
             let currentPrice := List.hd NaN prices in
             let pastPrice := List.last prices NaN in
             let change := mul (div (sub currentPrice pastPrice) pastPrice) (ofZ 100) in
             ret {| answer :=
                      "Here's the " ++ toString days ++ "-day trend for "
                      ++ coins.name c ++ ": The price changed from $"
                      ++ toFixed pastPrice ++ " to $" ++ toFixed currentPrice
                      ++ ", a " ++ plusSign change ++ toFixed change ++ "% change.";
                    data :=
                      Some (TrendData (coins.coingeckoId c) (coins.name c) days
                              (map (fun h =>
                                      (historicalPrices.timestamp h,
                                       parseFloat (orZero (Some (historicalPrices.price h)))))
                                 history)) |}
         end
     end)
    (fun _ =>
       ret (say "Sorry, I encountered an error while fetching the trend. Please try again later.")).

Definition handleVolumeQuery (coinName : string) : M reply :=
  tryCatch
    (coin <- selectCoin (JsString.toLowerCase coinName) ;;
     match coin with
     | c :: _ =>
         let volume := parseFloat (orZero (coins.volume24h c)) in
         ret (say ("The 24-hour trading volume of " ++ coins.name c
                   ++ " (" ++ upperSymbol (coins.symbol c) ++ ") is $"
                   ++ toLocaleString volume))
     | [] =>
         marketData <- searchCoin coinName ;;
         match marketData with
         | Some md =>
             total_volume <- deref (CoinMarketData.total_volume md) ;;
             ret (say ("The 24-hour trading volume of " ++ CoinMarketData.name md
                       ++ " (" ++ upperSymbol (CoinMarketData.symbol md) ++ ") is $"
                       ++ toLocaleString total_volume))
         | None => ret (say (notFound coinName))
         end
     end)
    (fun _ =>
       ret (say "Sorry, I encountered an error while fetching the volume. Please try again later.")).

Definition handleChangeQuery (coinName : string) : M reply :=
  tryCatch
    (coin <- selectCoin (JsString.toLowerCase coinName) ;;
     match coin with
     | c :: _ =>
         let change := parseFloat (orZero (coins.priceChange24h c)) in
         let sign := plusSign change in
         ret (say ("The 24-hour price change of " ++ coins.name c
                   ++ " (" ++ upperSymbol (coins.symbol c) ++ ") is "
                   ++ sign ++ toFixed change ++ "%"))
     | [] =>
         marketData <- searchCoin coinName ;;
         match marketData with
         | Some md =>
             (* [null >= 0] holds, the number 0 standing for [null] *)
             let sign :=
               match CoinMarketData.price_change_percentage_24h md with
               | Some x => plusSign x
               | None => "+"
               end in
             pct <- deref (CoinMarketData.price_change_percentage_24h md) ;;
             ret (say ("The 24-hour price change of " ++ CoinMarketData.name md
                       ++ " (" ++ upperSymbol (CoinMarketData.symbol md) ++ ") is "
                       ++ sign ++ toFixed pct ++ "%"))
         | None => ret (say (notFound coinName))
         end
     end)
    (fun _ =>
       ret (say "Sorry, I encountered an error while fetching the change. Please try again later.")).

(** [coin[0].marketCap || 0] *)
Definition marketCapOrZero (c : coins.row) : number :=
  match coins.marketCap c with
  | Some z => if truthy (ofZ z) then ofZ z else zero
  | None => zero
  end.

Definition handleMarketCapQuery (coinName : string) : M reply :=
  tryCatch
    (coin <- selectCoin (JsString.toLowerCase coinName) ;;
     match coin with
     | c :: _ =>
         let marketCap := marketCapOrZero c in
         ret (say ("The market capitalization of " ++ coins.name c
                   ++ " (" ++ upperSymbol (coins.symbol c) ++ ") is $"
                   ++ toLocaleString marketCap))
     | [] =>
         marketData <- searchCoin coinName ;;
         match marketData with
         | Some md =>
             market_cap <- deref (CoinMarketData.market_cap md) ;;
             ret (say ("The market capitalization of " ++ CoinMarketData.name md
                       ++ " (" ++ upperSymbol (CoinMarketData.symbol md) ++ ") is $"
                       ++ toLocaleString market_cap))
         | None => ret (say (notFound coinName))
         end
     end)
    (fun _ =>
       ret (say "Sorry, I encountered an error while fetching the market cap. Please try again later.")).

(** The lines of the ranking, [index] being that of the first row. *)
Fixpoint coinLines (index : Z) (l : list coins.row) : list string :=
  match l with
  | [] => []
  | coin :: l' =>
      (toString (ofZ (index + 1)) ++ ". " ++ coins.name coin
       ++ " (" ++ upperSymbol (coins.symbol coin) ++ ") - $"
       ++ toFixed (parseFloat (orZero (coins.currentPrice coin))))
      :: coinLines (index + 1) l'
  end.

Definition handleTopCoinsQuery (limit : number) : M reply :=
  tryCatch
    (topCoins <- selectTopCoins limit ;;
     match topCoins with
     | [] =>
         ret (say "I don't have any coin data yet. Please run the database seeding script first.")
     | _ :: _ =>
         let coinList := JsString.join nl (coinLines 0 topCoins) in
         ret {| answer :=
                  "Here are the top " ++ toString limit ++ " coins by market cap:"
                  ++ nl ++ coinList;
                data := Some (TopCoinsData topCoins) |}
     end)
    (fun _ =>
       ret (say "Sorry, I encountered an error while fetching the top coins. Please try again later.")).

Definition helpText : string :=
  "Sorry, I can't answer that. Try asking:" ++ nl
  ++ "- 'What is the price of Bitcoin?'" ++ nl
  ++ "- 'Show me the 7-day trend of Ethereum'" ++ nl
  ++ "- 'What is the volume of Bitcoin?'" ++ nl
  ++ "- 'Show me top 5 coins'".

(** The number of days when the pattern captured none. *)
Definition defaultDays : number := ofZ 30.

Definition parseQuery (query : string) : M reply :=
  let lowerQuery := JsString.trim (JsString.toLowerCase query) in
  match exec pricePattern lowerQuery with
  | Some priceMatch =>
      let coinName := JsString.trim (groupText 1 priceMatch) in
      handlePriceQuery coinName
  | None =>
  match exec trendPattern lowerQuery with
  | Some trendMatch =>
      let days :=
        match group 1 trendMatch with
        | Some d => if JsString.truthy d then parseInt d else defaultDays
        | None => defaultDays
        end in
      let coinName := JsString.trim (groupText 2 trendMatch) in
      handleTrendQuery coinName days
  | None =>
  match exec volumePattern lowerQuery with
  | Some volumeMatch =>
      let coinName := JsString.trim (groupText 1 volumeMatch) in
      handleVolumeQuery coinName
  | None =>
  match exec changePattern lowerQuery with
  | Some changeMatch =>
      let coinName := JsString.trim (groupText 1 changeMatch) in
      handleChangeQuery coinName
  | None =>
  match exec marketCapPattern lowerQuery with
  | Some marketCapMatch =>
      let coinName := JsString.trim (groupText 1 marketCapMatch) in
      handleMarketCapQuery coinName
  | None =>
  match exec topCoinsPattern lowerQuery with
  | Some topCoinsMatch =>
      let limit := parseInt (groupText 1 topCoinsMatch) in
      handleTopCoinsQuery limit
  | None => ret (say helpText)
  end end end end end end.

(* ===================================================================== *)
(** * Sample data *)
(* ===================================================================== *)

Module Sample.

Definition bitcoin : coins.row :=
  {| coins.id := 1; coins.coingeckoId := "bitcoin"; coins.symbol := "btc";
     coins.name := "Bitcoin"; coins.currentPrice := Some "45000.50";
     coins.marketCap := Some 880000000000; coins.priceChange24h := Some "2.5000";
     coins.volume24h := Some "25000000000.0000"; coins.lastUpdated := None |}.

Definition bitcoinEntry : CoinIndex.t :=
  {| CoinIndex.id := "bitcoin"; CoinIndex.symbol := "btc"; CoinIndex.name := "Bitcoin" |}.

Definition bitcoinMarket : CoinMarketData.t :=
  {| CoinMarketData.id := "bitcoin"; CoinMarketData.symbol := "btc";
     CoinMarketData.name := "Bitcoin";
     CoinMarketData.current_price := Some (parseFloat "45100.25");
     CoinMarketData.market_cap := Some (parseFloat "881000000000");
     CoinMarketData.price_change_percentage_24h := Some (parseFloat "2.7");
     CoinMarketData.total_volume := Some (parseFloat "25100000000");
     CoinMarketData.last_updated := "2024-01-01T00:00:00.000Z" |}.

(** A provider that serves a one-coin index and its market record. *)
Definition healthy : nat -> Request -> Response :=
  fun _ r =>
    match r with
    | GetCoinsList => CoinsList [bitcoinEntry]
    | GetCoinsMarkets _ => Markets [bitcoinMarket]
    | GetMarketChart _ _ => MarketChart (Some [])
    end.

(** A provider that throttles every request. *)
Definition throttling : nat -> Request -> Response :=
  fun _ _ => Failed (Some 429).

Definition midnight : Z := 1704067200000.

Definition world (rows : list coins.row) (history : list historicalPrices.row)
  (p : nat -> Request -> Response) : World :=
  {| coinsTable := rows; historicalPricesTable := history; dbAvailable := true;
     redis := Some ∅; redisAvailable := true; provider := p;
     clock := midnight; trace := [] |}.

(** A history row of [bitcoin], [daysBefore] days before [midnight]. *)
Definition pricePoint (i daysBefore : Z) (p : string) : historicalPrices.row :=
  {| historicalPrices.id := i; historicalPrices.coinId := "bitcoin";
     historicalPrices.timestamp := midnight - daysBefore * msPerDay;
     historicalPrices.price := p |}.

(** A window whose oldest price is zero. *)
Definition listedAtZero : list historicalPrices.row :=
  [pricePoint 1 6 "0.0000000000"; pricePoint 2 1 "105.0000000000"].

(** A window whose prices are all zero. *)
Definition flatAtZero : list historicalPrices.row :=
  [pricePoint 1 6 "0.0000000000"; pricePoint 2 1 "0.0000000000"].

(** Rows on both sides of the thirty-day floor. *)
Definition twoMonths : list historicalPrices.row :=
  [pricePoint 1 45 "90.0000000000"; pricePoint 2 31 "95.0000000000";
   pricePoint 3 29 "100.0000000000"; pricePoint 4 1 "105.0000000000"].

End Sample.

(** The answer string of a run, when it returned. *)
Definition answerOf (run : outcome reply * World) : option string :=
  match fst run with
  | Ok r => Some (answer r)
  | Throw _ => None
  end.

(* ===================================================================== *)
(** * The rule table

    [parseQuery] tests its six patterns one after the other. The table
    below names the rules and lists them in priority order; [firstMatch]
    is the classifier that the order describes, and [dispatch] the handler
    call that belongs to each rule. *)
(* ===================================================================== *)

Inductive Intent : Type :=
| Price | Trend | Volume | Change | MarketCap | TopList | Unknown.

Definition Intent_eqb (a b : Intent) : bool :=
  match a, b with
  | Price, Price | Trend, Trend | Volume, Volume | Change, Change
  | MarketCap, MarketCap | TopList, TopList | Unknown, Unknown => true
  | _, _ => false
  end.

Definition ruleOrder : list Intent :=
  [Price; Trend; Volume; Change; MarketCap; TopList].

Definition rulePattern (t : Intent) : regex :=
  match t with
  | Price => pricePattern
  | Trend => trendPattern
  | Volume => volumePattern
  | Change => changePattern
  | MarketCap => marketCapPattern
  | TopList => topCoinsPattern
  | Unknown => Empty
  end.

(** The text that the patterns are run on. *)
Definition normalize (query : string) : string :=
  JsString.trim (JsString.toLowerCase query).

Definition ruleMatches (t : Intent) (query : string) : bool :=
  match exec (rulePattern t) (normalize query) with
  | Some _ => true
  | None => false
  end.

(** The first rule of [rules] whose pattern matches, with its groups;
    [Unknown] when none does. *)
Fixpoint firstMatch (rules : list Intent) (lowerQuery : string) : Intent * captures :=
  match rules with
  | [] => (Unknown, [])
  | t :: rules' =>
      match exec (rulePattern t) lowerQuery with
      | Some m => (t, m)
      | None => firstMatch rules' lowerQuery
      end
  end.

Definition classify (query : string) : Intent :=
  fst (firstMatch ruleOrder (normalize query)).

(** The day count of a trend match. *)
Definition daysOf (m : captures) : number :=
  match group 1 m with
  | Some d => if JsString.truthy d then parseInt d else defaultDays
  | None => defaultDays
  end.

Definition dispatch (t : Intent) (m : captures) : M reply :=
  match t with
  | Price => handlePriceQuery (JsString.trim (groupText 1 m))
  | Trend => handleTrendQuery (JsString.trim (groupText 2 m)) (daysOf m)
  | Volume => handleVolumeQuery (JsString.trim (groupText 1 m))
  | Change => handleChangeQuery (JsString.trim (groupText 1 m))
  | MarketCap => handleMarketCapQuery (JsString.trim (groupText 1 m))
  | TopList => handleTopCoinsQuery (parseInt (groupText 1 m))
  | Unknown => ret (say helpText)
  end.

(* ===================================================================== *)
(** * routes/coins.routes.ts and scripts/seed-database.ts

    The parts of the callers that decide something by themselves: the
    validation of the query strings of [GET /api/coins] and
    [GET /api/coins/:id/history], the chat route around [parseQuery], and
    the batching loop of the seeding script. *)
(* ===================================================================== *)

Definition isNaN (x : number) : bool :=
  match x with
  | S754_nan => true
  | _ => false
  end.

(** [x < y]; false as soon as one side is NaN. *)
Definition lessThan (x y : number) : bool := SFltb x y.

(** [request.query.x ? parseInt(request.query.x, 10) : undefined] *)
Definition queryInt (x : option string) : option number :=
  match x with
  | Some s => if JsString.truthy s then Some (parseInt s) else None
  | None => None
  end.

(** What the validation of [GET /api/coins] decides: a 400 reply with
    its message, or the [limit] and [offset] of the query. *)
Inductive pageWindow : Type :=
| BadRequest (error : string)
| PageWindow (limit offset : number).

Definition coinsPageWindow (top page pageSize : option string) : pageWindow :=
  let top := queryInt top in
  let page := queryInt page in
  let pageSize := queryInt pageSize in
  let limit := ofZ 50 in
  let offset := zero in
  match top with
  | Some t =>
      if truthy t then
        if isNaN t || lessThan t (ofZ 1) || lessThan (ofZ 100) t then
          BadRequest "Invalid 'top' parameter. Must be a number between 1 and 100."
        else PageWindow t offset
      else
        match page, pageSize with
        | Some p, Some ps =>
            if isNaN p || lessThan p (ofZ 1) then
              BadRequest "Invalid 'page' parameter. Must be a number >= 1."
            else if isNaN ps || lessThan ps (ofZ 1) || lessThan (ofZ 100) ps then
              BadRequest "Invalid 'pageSize' parameter. Must be a number between 1 and 100."
            else PageWindow ps (mul (sub p (ofZ 1)) ps)
        | _, _ => PageWindow limit offset
        end
  | None =>
      match page, pageSize with
      | Some p, Some ps =>
          if isNaN p || lessThan p (ofZ 1) then
            BadRequest "Invalid 'page' parameter. Must be a number >= 1."
          else if isNaN ps || lessThan ps (ofZ 1) || lessThan (ofZ 100) ps then
            BadRequest "Invalid 'pageSize' parameter. Must be a number between 1 and 100."
          else PageWindow ps (mul (sub p (ofZ 1)) ps)
      | _, _ => PageWindow limit offset
      end
  end.




(** [l.slice(from, to)] for indices within the usual range. *)
Definition slice {A} (l : list A) (from to : nat) : list A :=
  firstn (to - from) (skipn from l).

(** The batches that the seeding loop
    [for (let j = 0; j < historyRecords.length; j += batchSize)] hands to
    [db.insert], from index [j] on; [fuel] bounds the iterations. *)
Fixpoint batchesFrom {A} (fuel : nat) (historyRecords : list A) (batchSize j : nat)
  : list (list A) :=
  match fuel with
  | O => []
  | S fuel' =>
      if Nat.ltb j (length historyRecords) then
        slice historyRecords j (j + batchSize)
        :: batchesFrom fuel' historyRecords batchSize (j + batchSize)
      else []
  end.

Definition historyBatches {A} (historyRecords : list A) : list (list A) :=
  batchesFrom (length historyRecords) historyRecords 100 0.

(** The loop that [rmatch] runs for [.+?], on its own: one more
    character, then the continuation, and the loop again if that fails. *)
Definition lazyDots (k : cont) : nat -> list ascii -> captures -> option captures :=
  fix more (fuel : nat) (s : list ascii) (c : captures) : option captures :=
    match fuel with
    | O => None
    | S fuel' =>
        rmatch Dot s c (fun s' c' => orElse (k s' c') (fun _ => more fuel' s' c'))
    end.

(** More sample data. *)
Module Fixture.



(** A window of one row. *)
Definition oneDay : list historicalPrices.row :=
  [Sample.pricePoint 1 1 "105.0000000000"].

End Fixture.

(* ===================================================================== *)
(** * Properties *)
(* ===================================================================== *)

(** ** Computations that cannot throw *)

Lemma tryCatch_ret_total {A} (m : M A) (x : A) (w : World) :
  exists r w', tryCatch m (fun _ => ret x) w = (Ok r, w').
Proof.
  unfold tryCatch, ret.
  destruct (m w) as [[a | e] w']; eauto.
Qed.


Lemma getCached_total (key : string) (w : World) :
  exists r, getCached key w = (Ok r, w).
Proof.
  unfold getCached.
  destruct (redis w) as [store |]; [| eauto].
  unfold tryCatch, bind, redis_get, ret.
  destruct (redisAvailable w); [| eauto].
  destruct (store !! key); eauto.
Qed.

Lemma setCached_total (key : string) (v : option CoinMarketData.t) (ttl : Z) (w : World) :
  exists w', setCached key v ttl w = (Ok tt, w').
Proof.
  unfold setCached.
  destruct (redis w) as [store |]; [| eauto].
  unfold tryCatch, redis_setex, ret.
  destruct (redisAvailable w && (0 <? ttl)); eauto.
Qed.

(** C4. [parseQuery] never throws: whatever the text and whatever the
    state of the database, the cache store and the provider, it returns a
    reply, which carries an answer string. *)
Theorem parseQuery_never_raises (query : string) (w : World) :
  exists (r : reply) (w' : World), parseQuery query w = (Ok r, w').
Proof.
  unfold parseQuery.
  destruct (exec pricePattern _); [apply tryCatch_ret_total |].
  destruct (exec trendPattern _); [apply tryCatch_ret_total |].
  destruct (exec volumePattern _); [apply tryCatch_ret_total |].
  destruct (exec changePattern _); [apply tryCatch_ret_total |].
  destruct (exec marketCapPattern _); [apply tryCatch_ret_total |].
  destruct (exec topCoinsPattern _); [apply tryCatch_ret_total |].
  unfold ret; eauto.
Qed.

(** ** Classification *)

Lemma parseQuery_dispatch (query : string) :
  parseQuery query =
  dispatch (fst (firstMatch ruleOrder (normalize query)))
           (snd (firstMatch ruleOrder (normalize query))).
Proof.
  unfold parseQuery, normalize, ruleOrder, firstMatch, rulePattern.
  destruct (exec pricePattern _); [reflexivity |].
  destruct (exec trendPattern _); [reflexivity |].
  destruct (exec volumePattern _); [reflexivity |].
  destruct (exec changePattern _); [reflexivity |].
  destruct (exec marketCapPattern _); [reflexivity |].
  destruct (exec topCoinsPattern _); reflexivity.
Qed.

(** A rule that matches wins over every rule listed after it. *)
Lemma firstMatch_app (before after : list Intent) (t : Intent) (lowerQuery : string)
  (m : captures) :
  Forall (fun t' => exec (rulePattern t') lowerQuery = None) before ->
  exec (rulePattern t) lowerQuery = Some m ->
  firstMatch (before ++ t :: after)%list lowerQuery = (t, m).
Proof.
  intros Hbefore Hm.
  induction Hbefore as [| t' before Ht' _ IH]; simpl.
  - rewrite Hm. reflexivity.
  - rewrite Ht'. exact IH.
Qed.

(** C5. The rule that answers a query is the first one, in the order
    Price, Trend, Volume, Change, MarketCap, TopList, whose pattern
    matches: [parseQuery] calls the handler of that rule, whatever later
    rules match as well. In particular the text
    ["what is the price of bitcoin"] is a Price query, and so is a text
    that the Change pattern matches too. *)
Theorem first_matching_rule_wins :
  (forall (query : string) (before after : list Intent) (t : Intent) (m : captures),
      ruleOrder = (before ++ t :: after)%list ->
      Forall (fun t' => ruleMatches t' query = false) before ->
      exec (rulePattern t) (normalize query) = Some m ->
      classify query = t /\ parseQuery query = dispatch t m)
  /\ classify "what is the price of bitcoin" = Price
  /\ ruleMatches Change "what is the price of bitcoin" = false
  /\ ruleMatches Price "what is the change of price of bitcoin" = true
  /\ ruleMatches Change "what is the change of price of bitcoin" = true
  /\ classify "what is the change of price of bitcoin" = Price.
Proof.
  split; [| repeat split; vm_compute; reflexivity].
  intros query before after t m Horder Hbefore Hm.
  assert (Hfirst : firstMatch ruleOrder (normalize query) = (t, m)).
  { rewrite Horder. apply firstMatch_app; [| exact Hm].
    eapply Forall_impl; [exact Hbefore |].
    intros t' Ht'. unfold ruleMatches in Ht'.
    destruct (exec (rulePattern t') (normalize query)); [discriminate | reflexivity]. }
  split.
  - unfold classify. rewrite Hfirst. reflexivity.
  - rewrite parseQuery_dispatch, Hfirst. reflexivity.
Qed.

Lemma first_matching_rule_wins_witness :
  classify "What is the 24h change of the volume of Bitcoin?" = Volume
  /\ parseQuery "What is the 24h change of the volume of Bitcoin?"
     = dispatch Volume [(1%nat, JsString.chars "bitcoin")].
Proof.
  apply (proj1 first_matching_rule_wins
           "What is the 24h change of the volume of Bitcoin?"
           [Price; Trend] [Change; MarketCap; TopList] Volume
           [(1%nat, JsString.chars "bitcoin")]).
  - reflexivity.
  - repeat constructor.
  - vm_compute. reflexivity.
Defined.

(** ** Retry on rate limiting *)

Lemma axios_get_failed (r : Request) (status : option Z) (w : World) :
  provider w (length (requests w)) r = Failed status ->
  axios_get r w = (Throw (AxiosError status), withTrace w (trace w ++ [Http r])).
Proof. intros H. unfold axios_get. rewrite H. reflexivity. Qed.

Lemma sleeps_after_sleep (ms : Z) (w : World) :
  sleeps (snd (sleep ms w)) = (sleeps w ++ [ms])%list.
Proof. unfold sleeps, sleep. cbn [snd trace withClock withTrace]. rewrite flat_map_app. reflexivity. Qed.

(** The backoff schedule of [retry] for any number of attempts: against
    an operation that is throttled every time, the loop entered at index
    [i] sleeps [delay * 2^j] for each [j] from [i] up to, but not
    including, the last index, and then rethrows. *)
Lemma retry_loop_schedule {A} (fn : M A) (retries : nat) (delay : Z) :
  (forall w, exists w', fn w = (Throw (AxiosError (Some 429)), w')
                        /\ sleeps w' = sleeps w) ->
  forall (remaining i : nat) (w : World),
    (i + S remaining)%nat = retries ->
    exists w',
      retry_loop fn retries delay i (S remaining) w = (Throw (AxiosError (Some 429)), w')
      /\ sleeps w' =
         (sleeps w ++ map (fun j => delay * 2 ^ Z.of_nat j) (seq i remaining))%list.
Proof.
  intros Hfn remaining.
  induction remaining as [| remaining IH]; intros i w Hsum.
  - destruct (Hfn w) as (w0 & Efn & Hsl).
    cbn [retry_loop]. unfold tryCatch. rewrite Efn.
    cbn [is429 statusOf negb orb Z.eqb Pos.eqb].
    replace (Nat.eqb i (retries - 1)) with true
      by (symmetry; apply Nat.eqb_eq; lia).
    exists w0. split; [reflexivity |].
    cbn [seq map]. rewrite app_nil_r. exact Hsl.
  - destruct (Hfn w) as (w0 & Efn & Hsl).
    cbn [retry_loop]. unfold tryCatch at 1. rewrite Efn.
    cbn [is429 statusOf negb orb Z.eqb Pos.eqb].
    replace (Nat.eqb i (retries - 1)) with false
      by (symmetry; apply Nat.eqb_neq; lia).
    unfold bind at 1.
    destruct (sleep (delay * 2 ^ Z.of_nat i) w0) as [[[] | e] w1] eqn:Esleep;
      [| unfold sleep in Esleep; discriminate Esleep].
    destruct (IH (S i) w1 ltac:(lia)) as (w' & Eloop & Hsl').
    exists w'. split; [exact Eloop |].
    rewrite Hsl'.
    pose proof (sleeps_after_sleep (delay * 2 ^ Z.of_nat i) w0) as Hs.
    rewrite Esleep in Hs. cbn [snd] in Hs. rewrite Hs, Hsl.
    cbn [seq map]. rewrite <- app_assoc. reflexivity.
Qed.

(** C1, as the code has it. When the provider answers every history
    request with status 429, [fetchCoinHistory] sends three requests,
    sleeps 10 s after the first failure and 20 s after the second, and
    rethrows the rate-limit error at the third failure: there is no third
    sleep and no fourth request. *)
Theorem history_fetch_gives_up_on_third_429 (coinId : string) (days : number) (w : World) :
  (forall n, provider w n (GetMarketChart coinId days) = Failed (Some 429)) ->
  exists w',
    fetchCoinHistory coinId days w = (Throw (AxiosError (Some 429)), w')
    /\ trace w' =
       (trace w ++ [Http (GetMarketChart coinId days); Slept 10000;
                    Http (GetMarketChart coinId days); Slept 20000;
                    Http (GetMarketChart coinId days)])%list
    /\ clock w' = clock w + 30000.
Proof.
  intros H429.
  unfold fetchCoinHistory, retry, retry_default_retries, retry_default_delay.
  cbn [retry_loop].
  unfold tryCatch at 1, bind at 1.
  rewrite (axios_get_failed _ (Some 429)) by apply H429.
  cbn [is429 statusOf negb orb Nat.eqb Nat.sub Z.eqb Pos.eqb].
  unfold bind at 1, sleep at 1.
  unfold tryCatch at 1, bind at 1.
  rewrite (axios_get_failed _ (Some 429)) by apply H429.
  cbn [is429 statusOf negb orb Nat.eqb Nat.sub Z.eqb Pos.eqb].
  unfold bind at 1, sleep at 1.
  unfold tryCatch at 1, bind at 1.
  rewrite (axios_get_failed _ (Some 429)) by apply H429.
  cbn [is429 statusOf negb orb Nat.eqb Nat.sub Z.eqb Pos.eqb].
  unfold throw.
  eexists. split; [reflexivity |].
  cbn [trace clock withTrace withClock].
  split.
  - repeat rewrite <- app_assoc. reflexivity.
  - change (10000 * 2 ^ Z.of_nat 0) with 10000.
    change (10000 * 2 ^ Z.of_nat 1) with 20000. lia.
Qed.

Lemma history_fetch_gives_up_on_third_429_witness :
  exists w',
    fetchCoinHistory "bitcoin" fetchCoinHistory_default_days (Sample.world [] [] Sample.throttling)
    = (Throw (AxiosError (Some 429)), w')
    /\ trace w' =
       [Http (GetMarketChart "bitcoin" fetchCoinHistory_default_days); Slept 10000;
        Http (GetMarketChart "bitcoin" fetchCoinHistory_default_days); Slept 20000;
        Http (GetMarketChart "bitcoin" fetchCoinHistory_default_days)]
    /\ clock w' = Sample.midnight + 30000.
Proof.
  apply (history_fetch_gives_up_on_third_429 "bitcoin" fetchCoinHistory_default_days
           (Sample.world [] [] Sample.throttling)).
  intros n. reflexivity.
Defined.

(** C1 with a third sleep of 40 s and a fourth attempt does not hold:
    under a provider that always answers 429 the sleeps are 10 s and 20 s
    only, and the requests are three. *)
Lemma history_fetch_schedule_counterexample :
  let w := Sample.world [] [] Sample.throttling in
  let after := snd (fetchCoinHistory "bitcoin" fetchCoinHistory_default_days w) in
  (forall n, provider w n (GetMarketChart "bitcoin" fetchCoinHistory_default_days) = Failed (Some 429))
  /\ sleeps after = [10000; 20000]
  /\ length (requests after) = 3%nat
  /\ ~ (sleeps after = [10000; 20000; 40000] /\ length (requests after) = 4%nat).
Proof.
  cbv zeta. split; [intros n; reflexivity |].
  split; [vm_compute; reflexivity |].
  split; [vm_compute; reflexivity |].
  intros [H _]. vm_compute in H. discriminate H.
Qed.

(** ** The cache gateway *)

(** C7. [getCached] and [setCached] never throw. When the store is not
    configured, or when the underlying [get] or [setex] fails,
    [getCached] returns [null] and [setCached] returns, and the world
    (the store included) is as it was. *)
Theorem cache_gateway_never_raises (key : string) (v : option CoinMarketData.t)
  (ttl : Z) (w : World) :
  (exists r, getCached key w = (Ok r, w))
  /\ (exists w', setCached key v ttl w = (Ok tt, w'))
  /\ (redis w = None ->
      getCached key w = (Ok None, w) /\ setCached key v ttl w = (Ok tt, w))
  /\ (forall store e,
        redis w = Some store -> fst (redis_get store key w) = Throw e ->
        getCached key w = (Ok None, w))
  /\ (forall store e,
        redis w = Some store -> fst (redis_setex store key ttl v w) = Throw e ->
        setCached key v ttl w = (Ok tt, w)).
Proof.
  split; [apply getCached_total |].
  split; [apply setCached_total |].
  split; [| split].
  - intros Hnone. unfold getCached, setCached. rewrite Hnone. split; reflexivity.
  - intros store e Hstore Hfail.
    unfold getCached. rewrite Hstore.
    unfold tryCatch, bind, ret.
    unfold redis_get in *.
    destruct (redisAvailable w); [| reflexivity].
    destruct (store !! key); discriminate Hfail.
  - intros store e Hstore Hfail.
    unfold setCached. rewrite Hstore.
    unfold tryCatch, ret.
    unfold redis_setex in *.
    destruct (redisAvailable w && (0 <? ttl)); [discriminate Hfail | reflexivity].
Qed.

Lemma cache_gateway_never_raises_witness :
  let w := {| coinsTable := []; historicalPricesTable := []; dbAvailable := true;
              redis := Some ∅; redisAvailable := false;
              provider := Sample.healthy; clock := Sample.midnight; trace := [] |} in
  getCached "crypto:search:bitcoin" w = (Ok None, w)
  /\ setCached "crypto:search:bitcoin" (Some Sample.bitcoinMarket) CACHE_TTL.SEARCH w
     = (Ok tt, w).
Proof.
  cbv zeta.
  split.
  - eapply (proj1 (proj2 (proj2 (proj2
      (cache_gateway_never_raises "crypto:search:bitcoin" None 0 _)))));
      reflexivity.
  - eapply (proj2 (proj2 (proj2 (proj2
      (cache_gateway_never_raises "crypto:search:bitcoin"
         (Some Sample.bitcoinMarket) CACHE_TTL.SEARCH _)))));
      reflexivity.
Defined.

(** ** Local store first *)

Lemma firstn_filter_find {A} (f : A -> bool) (l : list A) :
  firstn 1 (List.filter f l) = match List.find f l with Some x => [x] | None => [] end.
Proof.
  induction l as [| x l IH]; [reflexivity |].
  cbn [List.filter List.find]. destruct (f x); [reflexivity | exact IH].
Qed.

Lemma selectCoin_hit (ident : string) (w : World) (c : coins.row) :
  dbAvailable w = true ->
  List.find (fun r => String.eqb (coins.coingeckoId r) ident) (coinsTable w) = Some c ->
  selectCoin ident w = (Ok [c], w).
Proof.
  intros Hdb Hfind. unfold selectCoin, dbQuery.
  rewrite Hdb, firstn_filter_find, Hfind. reflexivity.
Qed.

Lemma find_none_of_no_identifier (ident : string) (rows : list coins.row) :
  (forall c, In c rows -> coins.coingeckoId c <> ident) ->
  List.find (fun r => String.eqb (coins.coingeckoId r) ident) rows = None.
Proof.
  intros Hno. induction rows as [| r rows IH]; [reflexivity |].
  cbn [List.find].
  destruct (String.eqb_spec (coins.coingeckoId r) ident) as [Heq | _].
  - exfalso. apply (Hno r); [left; reflexivity | exact Heq].
  - apply IH. intros c Hc. apply Hno. right. exact Hc.
Qed.

Lemma selectCoin_miss (ident : string) (w : World) :
  dbAvailable w = true ->
  (forall c, In c (coinsTable w) -> coins.coingeckoId c <> ident) ->
  selectCoin ident w = (Ok [], w).
Proof.
  intros Hdb Hno. unfold selectCoin, dbQuery.
  rewrite Hdb, firstn_filter_find, find_none_of_no_identifier by exact Hno.
  reflexivity.
Qed.

Section LocalHit.
Variables (coinName : string) (w : World) (c : coins.row).
Hypothesis Hdb : dbAvailable w = true.
Hypothesis Hfind :
  List.find (fun r => String.eqb (coins.coingeckoId r) (JsString.toLowerCase coinName))
    (coinsTable w) = Some c.

Lemma handlePriceQuery_local :
  handlePriceQuery coinName w =
  (Ok (say ("The current price of " ++ coins.name c
            ++ " (" ++ JsString.toUpperCase (coins.symbol c) ++ ") is $"
            ++ toLocaleString (parseFloat (orZero (coins.currentPrice c))))), w).
Proof.
  unfold handlePriceQuery, tryCatch, bind.
  rewrite (selectCoin_hit _ _ c Hdb Hfind). reflexivity.
Qed.

Lemma handleVolumeQuery_local :
  handleVolumeQuery coinName w =
  (Ok (say ("The 24-hour trading volume of " ++ coins.name c
            ++ " (" ++ JsString.toUpperCase (coins.symbol c) ++ ") is $"
            ++ toLocaleString (parseFloat (orZero (coins.volume24h c))))), w).
Proof.
  unfold handleVolumeQuery, tryCatch, bind.
  rewrite (selectCoin_hit _ _ c Hdb Hfind). reflexivity.
Qed.

Lemma handleChangeQuery_local :
  handleChangeQuery coinName w =
  (Ok (say ("The 24-hour price change of " ++ coins.name c
            ++ " (" ++ JsString.toUpperCase (coins.symbol c) ++ ") is "
            ++ plusSign (parseFloat (orZero (coins.priceChange24h c)))
            ++ toFixed (parseFloat (orZero (coins.priceChange24h c))) ++ "%")), w).
Proof.
  unfold handleChangeQuery, tryCatch, bind.
  rewrite (selectCoin_hit _ _ c Hdb Hfind). reflexivity.
Qed.

Lemma handleMarketCapQuery_local :
  handleMarketCapQuery coinName w =
  (Ok (say ("The market capitalization of " ++ coins.name c
            ++ " (" ++ JsString.toUpperCase (coins.symbol c) ++ ") is $"
            ++ toLocaleString (marketCapOrZero c))), w).
Proof.
  unfold handleMarketCapQuery, tryCatch, bind.
  rewrite (selectCoin_hit _ _ c Hdb Hfind). reflexivity.
Qed.
End LocalHit.

(** C6. When the local store holds a row under the lower-cased coin
    name, each of the four single-coin handlers answers from that row and
    leaves the world as it found it: no request goes to the provider (and
    none to the cache), whatever the provider would have said. *)
Theorem local_hit_never_consults_provider (coinName : string) (w : World) (c : coins.row) :
  dbAvailable w = true ->
  List.find (fun r => String.eqb (coins.coingeckoId r) (JsString.toLowerCase coinName))
    (coinsTable w) = Some c ->
  handlePriceQuery coinName w =
    (Ok (say ("The current price of " ++ coins.name c
              ++ " (" ++ JsString.toUpperCase (coins.symbol c) ++ ") is $"
              ++ toLocaleString (parseFloat (orZero (coins.currentPrice c))))), w)
  /\ handleVolumeQuery coinName w =
    (Ok (say ("The 24-hour trading volume of " ++ coins.name c
              ++ " (" ++ JsString.toUpperCase (coins.symbol c) ++ ") is $"
              ++ toLocaleString (parseFloat (orZero (coins.volume24h c))))), w)
  /\ handleChangeQuery coinName w =
    (Ok (say ("The 24-hour price change of " ++ coins.name c
              ++ " (" ++ JsString.toUpperCase (coins.symbol c) ++ ") is "
              ++ plusSign (parseFloat (orZero (coins.priceChange24h c)))
              ++ toFixed (parseFloat (orZero (coins.priceChange24h c))) ++ "%")), w)
  /\ handleMarketCapQuery coinName w =
    (Ok (say ("The market capitalization of " ++ coins.name c
              ++ " (" ++ JsString.toUpperCase (coins.symbol c) ++ ") is $"
              ++ toLocaleString (marketCapOrZero c))), w)
  /\ (forall h,
        In h [handlePriceQuery; handleVolumeQuery; handleChangeQuery; handleMarketCapQuery] ->
        requests (snd (h coinName w)) = requests w).
Proof.
  intros Hdb Hfind.
  pose proof (handlePriceQuery_local coinName w c Hdb Hfind) as Hp.
  pose proof (handleVolumeQuery_local coinName w c Hdb Hfind) as Hv.
  pose proof (handleChangeQuery_local coinName w c Hdb Hfind) as Hc.
  pose proof (handleMarketCapQuery_local coinName w c Hdb Hfind) as Hm.
  repeat split; try assumption.
  intros h [<- | [<- | [<- | [<- | []]]]].
  - rewrite Hp. reflexivity.
  - rewrite Hv. reflexivity.
  - rewrite Hc. reflexivity.
  - rewrite Hm. reflexivity.
Qed.

(** A stale local row wins over a fresher record at the provider. *)
Lemma local_hit_never_consults_provider_witness :
  let w := Sample.world [Sample.bitcoin] [] Sample.healthy in
  handlePriceQuery "bitcoin" w
    = (Ok (say "The current price of Bitcoin (BTC) is $45,000.50"), w)
  /\ handleVolumeQuery "bitcoin" w
    = (Ok (say "The 24-hour trading volume of Bitcoin (BTC) is $25,000,000,000.00"), w)
  /\ handleChangeQuery "bitcoin" w
    = (Ok (say "The 24-hour price change of Bitcoin (BTC) is +2.50%"), w)
  /\ handleMarketCapQuery "bitcoin" w
    = (Ok (say "The market capitalization of Bitcoin (BTC) is $880,000,000,000.00"), w)
  /\ (forall h,
        In h [handlePriceQuery; handleVolumeQuery; handleChangeQuery; handleMarketCapQuery] ->
        requests (snd (h "bitcoin" w)) = requests w).
Proof.
  cbv zeta.
  apply (local_hit_never_consults_provider "bitcoin"
           (Sample.world [Sample.bitcoin] [] Sample.healthy) Sample.bitcoin);
    reflexivity.
Defined.

(** C8. With a local row for the identifier [bitcoin] whose name is
    [Bitcoin], symbol [btc] and current price [45000.50], the query
    ["What is the price of Bitcoin?"] is answered
    ["The current price of Bitcoin (BTC) is $45,000.50"]: thousands
    separator, two decimals, symbol in upper case. *)
Theorem price_of_bitcoin_answer (w : World) (c : coins.row) :
  dbAvailable w = true ->
  List.find (fun r => String.eqb (coins.coingeckoId r) "bitcoin") (coinsTable w) = Some c ->
  coins.name c = "Bitcoin" ->
  coins.symbol c = "btc" ->
  coins.currentPrice c = Some "45000.50" ->
  parseQuery "What is the price of Bitcoin?" w
  = (Ok {| answer := "The current price of Bitcoin (BTC) is $45,000.50"; data := None |}, w).
Proof.
  intros Hdb Hfind Hname Hsymbol Hprice.
  assert (Hmatch :
            exec pricePattern
              (JsString.trim (JsString.toLowerCase "What is the price of Bitcoin?"))
            = Some [(1%nat, JsString.chars "bitcoin")])
    by (vm_compute; reflexivity).
  unfold parseQuery. cbv zeta. rewrite Hmatch.
  change (JsString.trim (groupText 1 [(1%nat, JsString.chars "bitcoin")]))
    with "bitcoin".
  rewrite (handlePriceQuery_local "bitcoin" w c Hdb Hfind).
  rewrite Hname, Hsymbol, Hprice.
  vm_compute. reflexivity.
Qed.

Lemma price_of_bitcoin_answer_witness :
  parseQuery "What is the price of Bitcoin?"
    (Sample.world [Sample.bitcoin] [] Sample.throttling)
  = (Ok (say "The current price of Bitcoin (BTC) is $45,000.50"),
     Sample.world [Sample.bitcoin] [] Sample.throttling).
Proof.
  apply (price_of_bitcoin_answer
           (Sample.world [Sample.bitcoin] [] Sample.throttling) Sample.bitcoin);
    reflexivity.
Defined.

(** ** Local miss: the remote search *)

Section LocalMiss.
Variables (coinName : string) (w : World).
Hypothesis Hdb : dbAvailable w = true.
Hypothesis Hmiss :
  forall c, In c (coinsTable w) ->
            coins.coingeckoId c <> JsString.toLowerCase coinName.

Let found := fst (searchCoin coinName w).
Let w1 := snd (searchCoin coinName w).







End LocalMiss.





(** ** Trend over a window that starts at a zero price *)

(** Nothing guards the division by the oldest price: when it is zero the
    percent change is an infinity or NaN, whatever the newest price. *)
Lemma change_over_zero_not_finite (currentPrice pastPrice : number) :
  isZero pastPrice = true ->
  isFinite (mul (div (sub currentPrice pastPrice) pastPrice) (ofZ 100)) = false.
Proof.
  intros Hzero.
  destruct pastPrice as [s | | |]; try discriminate Hzero.
  destruct currentPrice as [[] | [] | | [] m e]; destruct s; reflexivity.
Qed.

Lemma toFixed_not_finite (x : number) :
  isFinite x = false ->
  toFixed x = "NaN" \/ toFixed x = "Infinity" \/ toFixed x = "-Infinity".
Proof.
  destruct x as [s | [] | | s m e]; try discriminate; intros _; auto.
Qed.

(** C2, on the code. With a history window whose oldest price is [0] the
    trend answer does not read [0%]: it reads [+Infinity%] when the newest
    price is positive and [NaN%] when it is zero too. *)
Theorem trend_over_zero_oldest_price :
  answerOf (parseQuery "Show me the 7-day trend of Bitcoin"
              (Sample.world [Sample.bitcoin] Sample.listedAtZero Sample.healthy))
  = Some "Here's the 7-day trend for Bitcoin: The price changed from $0.00 to $105.00, a +Infinity% change."
  /\ answerOf (parseQuery "Show me the 7-day trend of Bitcoin"
                 (Sample.world [Sample.bitcoin] Sample.flatAtZero Sample.healthy))
     = Some "Here's the 7-day trend for Bitcoin: The price changed from $0.00 to $0.00, a NaN% change.".
Proof. split; vm_compute; reflexivity. Qed.

(** ** Negative search results *)

Lemma requests_withTrace (w : World) (r : Request) :
  requests (withTrace w (trace w ++ [Http r])) = (requests w ++ [r])%list.
Proof. unfold requests. cbn [trace withTrace]. rewrite flat_map_app. reflexivity. Qed.

(** A search that finds nothing writes [null] under its key, and the
    next identical search reads that [null] as a miss and fetches the
    index again. *)
Lemma searchCoin_repeated_miss (query : string) (w : World)
  (store : gmap string CacheEntry) (l : list CoinIndex.t) :
  let key := getCacheKey "search" [normalize query] in
  redis w = Some store ->
  redisAvailable w = true ->
  store !! key = None ->
  (forall n, provider w n GetCoinsList = CoinsList l) ->
  findCoin (normalize query) l = None ->
  exists w1 w2,
    searchCoin query w = (Ok None, w1)
    /\ redis w1 =
       Some (<[key := {| value := None; expiresAt := clock w + 3600000 |}]> store)
    /\ searchCoin query w1 = (Ok None, w2)
    /\ requests w2 = (requests w ++ [GetCoinsList; GetCoinsList])%list.
Proof.
  intros key Hredis Hup Hfresh Hindex Hnone.
  assert (Hfirst :
    searchCoin query w =
    (Ok None,
     withRedis (withTrace w (trace w ++ [Http GetCoinsList]))
       (Some (<[key := {| value := None; expiresAt := clock w + 3600000 |}]> store)))).
  { unfold searchCoin, tryCatch at 1, bind at 1.
    fold (normalize query). fold key.
    unfold getCached. rewrite Hredis.
    unfold tryCatch at 1, bind at 1, redis_get. rewrite Hup, Hfresh.
    cbn [ret].
    unfold bind at 1, axios_get. rewrite Hindex. rewrite Hnone.
    unfold bind at 1, setCached. cbn [redis withTrace].
    rewrite Hredis. unfold tryCatch, redis_setex. cbn [redisAvailable withTrace clock].
    rewrite Hup. reflexivity. }
  eexists. eexists. split; [exact Hfirst |]. split; [reflexivity |].
  set (store1 := <[key := {| value := None; expiresAt := clock w + 3600000 |}]> store).
  set (w1 := withRedis (withTrace w (trace w ++ [Http GetCoinsList])) (Some store1)).
  assert (Hsecond :
    searchCoin query w1 =
    (Ok None,
     withRedis (withTrace w1 (trace w1 ++ [Http GetCoinsList]))
       (Some (<[key := {| value := None; expiresAt := clock w1 + 3600000 |}]> store1)))).
  { unfold searchCoin, tryCatch at 1, bind at 1.
    fold (normalize query). fold key.
    unfold getCached, w1. cbn [redis withRedis].
    unfold tryCatch at 1, bind at 1, redis_get.
    cbn [redisAvailable withRedis withTrace]. rewrite Hup.
    unfold store1 at 1. rewrite lookup_insert_eq.
    cbn [value expiresAt clock withRedis withTrace ret].
    replace (clock w <? clock w + 3600000) with true by (symmetry; apply Z.ltb_lt; lia).
    unfold bind at 1, axios_get. cbn [provider withRedis withTrace].
    rewrite Hindex, Hnone.
    unfold bind at 1, setCached. cbn [redis withTrace withRedis].
    unfold tryCatch, redis_setex. cbn [redisAvailable withTrace withRedis clock].
    rewrite Hup. reflexivity. }
  split; [exact Hsecond |].
  unfold requests, w1. cbn [trace withRedis withTrace].
  rewrite !flat_map_app, <- app_assoc. reflexivity.
Qed.

(** C3, on the code. The provider's index has no [dogecoin]. The first
    search answers [null] and stores [null] under the search key; the
    second, identical search reads the key, takes the [null] for a miss
    and asks the provider for its index a second time. *)
Theorem negative_search_result_fetched_again :
  let w := Sample.world [] [] Sample.healthy in
  let first := searchCoin "dogecoin" w in
  let second := searchCoin "dogecoin" (snd first) in
  fst first = Ok None
  /\ match redis (snd first) with
     | Some store => store !! "crypto:search:dogecoin"
     | None => None
     end = Some {| value := None; expiresAt := Sample.midnight + 3600000 |}
  /\ requests (snd first) = [GetCoinsList]
  /\ fst second = Ok None
  /\ requests (snd second) = [GetCoinsList; GetCoinsList].
Proof. cbv zeta. repeat split; vm_compute; reflexivity. Qed.

(** ** Trend queries without a day count *)

(** A trend match that captured no day count runs with thirty days. *)
Lemma trend_day_count_defaults_to_30 (query : string) (m : captures) :
  exec pricePattern (normalize query) = None ->
  exec trendPattern (normalize query) = Some m ->
  group 1 m = None ->
  parseQuery query = handleTrendQuery (JsString.trim (groupText 2 m)) (ofZ 30).
Proof.
  intros Hprice Htrend Hdays.
  unfold parseQuery. fold (normalize query). cbv zeta.
  rewrite Hprice, Htrend, Hdays. reflexivity.
Qed.

(** The thirty days set the time floor (the rows 45 and 31 days old are
    left out) and appear in the answer. *)
Lemma day_trend_of_bitcoin_uses_30_days :
  answerOf (parseQuery "day trend of bitcoin"
              (Sample.world [Sample.bitcoin] Sample.twoMonths Sample.healthy))
  = Some "Here's the 30-day trend for Bitcoin: The price changed from $100.00 to $105.00, a +5.00% change.".
Proof. vm_compute. reflexivity. Qed.

(** C9, on the code. The comment of rule 2 gives ["trend of bitcoin"] as
    a query that the rule handles, with the default of thirty days. The
    pattern requires the word [day], so that text matches no rule and is
    answered with the help text, in every world. *)
Theorem trend_of_bitcoin_not_recognised (w : World) :
  exec trendPattern (normalize "trend of bitcoin") = None
  /\ classify "trend of bitcoin" = Unknown
  /\ parseQuery "trend of bitcoin" w = (Ok (say helpText), w).
Proof.
  split; [vm_compute; reflexivity |].
  split; [vm_compute; reflexivity |].
  assert (H : parseQuery "trend of bitcoin" = ret (say helpText))
    by (vm_compute; reflexivity).
  rewrite H. reflexivity.
Qed.

(* ===================================================================== *)
(** * Further properties of the services *)
(* ===================================================================== *)

(** ** retry *)

(** X1. The backoff schedule of [retry] for any number of attempts.
    Against an operation that is throttled at every attempt, [retry] with
    [n + 1] attempts sleeps [delay], [2 * delay], ..., [2^(n-1) * delay]
    and then rethrows the rate-limit error. [I] is any invariant of the
    world under which the operation is throttled. *)
Theorem retry_backoff_schedule {A} (fn : M A) (I : World -> Prop) (n : nat)
  (delay : Z) (w : World) :
  (forall w0, I w0 ->
     exists w', fn w0 = (Throw (AxiosError (Some 429)), w')
                /\ sleeps w' = sleeps w0 /\ I w') ->
  (forall w0 ms, I w0 -> I (snd (sleep ms w0))) ->
  I w ->
  exists w',
    retry fn (S n) delay w = (Throw (AxiosError (Some 429)), w')
    /\ sleeps w' = (sleeps w ++ map (fun j => delay * 2 ^ Z.of_nat j) (seq 0 n))%list.
Proof.
  intros Hfn Hsleep.
  unfold retry.
  assert (Hloop : forall remaining i w0, I w0 -> (i + S remaining)%nat = S n ->
            exists w',
              retry_loop fn (S n) delay i (S remaining) w0
              = (Throw (AxiosError (Some 429)), w')
              /\ sleeps w' =
                 (sleeps w0 ++ map (fun j => delay * 2 ^ Z.of_nat j) (seq i remaining))%list).
  { induction remaining as [| remaining IH]; intros i w0 Hi Hsum.
    - destruct (Hfn w0 Hi) as (w1 & Efn & Hsl & _).
      cbn [retry_loop]. unfold tryCatch. rewrite Efn.
      cbn [is429 statusOf negb orb Z.eqb Pos.eqb].
      replace (Nat.eqb i (S n - 1)) with true by (symmetry; apply Nat.eqb_eq; lia).
      exists w1. split; [reflexivity |].
      cbn [seq map]. rewrite app_nil_r. exact Hsl.
    - destruct (Hfn w0 Hi) as (w1 & Efn & Hsl & Hi1).
      cbn [retry_loop]. unfold tryCatch at 1. rewrite Efn.
      cbn [is429 statusOf negb orb Z.eqb Pos.eqb].
      replace (Nat.eqb i (S n - 1)) with false by (symmetry; apply Nat.eqb_neq; lia).
      unfold bind at 1.
      pose proof (Hsleep w1 (delay * 2 ^ Z.of_nat i) Hi1) as Hi2.
      pose proof (sleeps_after_sleep (delay * 2 ^ Z.of_nat i) w1) as Hs.
      destruct (sleep (delay * 2 ^ Z.of_nat i) w1) as [[[] | e] w2] eqn:Esleep;
        [| unfold sleep in Esleep; discriminate Esleep].
      cbn [snd] in Hi2, Hs.
      destruct (IH (S i) w2 Hi2 ltac:(lia)) as (w' & Eloop & Hsl').
      exists w'. split; [exact Eloop |].
      rewrite Hsl', Hs, Hsl. cbn [seq map]. rewrite <- app_assoc. reflexivity. }
  intros Hw. apply (Hloop n 0%nat w Hw). reflexivity.
Qed.

Lemma retry_backoff_schedule_witness :
  exists w',
    retry (axios_get GetCoinsList) 5 500 (Sample.world [] [] Sample.throttling)
    = (Throw (AxiosError (Some 429)), w')
    /\ sleeps w' = [500; 1000; 2000; 4000].
Proof.
  apply (retry_backoff_schedule (axios_get GetCoinsList)
           (fun w0 => provider w0 = Sample.throttling) 4 500
           (Sample.world [] [] Sample.throttling)).
  - intros w0 Hp. eexists. split; [| split].
    + unfold axios_get. rewrite Hp. reflexivity.
    + unfold sleeps. cbn [trace withTrace]. rewrite flat_map_app.
      cbn [flat_map]. rewrite app_nil_r. reflexivity.
    + exact Hp.
  - intros w0 ms Hp. exact Hp.
  - reflexivity.
Defined.

(** X2. [retry] is transparent when the first attempt does not end in a
    rate-limit error: a result is returned as it is, and any other error
    is rethrown at once, without a sleep and without a second attempt. *)
Theorem retry_passes_through {A} (fn : M A) (n : nat) (delay : Z) (w : World) :
  (forall e w', fn w = (Throw e, w') -> is429 e = false) ->
  retry fn (S n) delay w = fn w.
Proof.
  intros Hnot. unfold retry. cbn [retry_loop]. unfold tryCatch.
  destruct (fn w) as [[a | e] w'] eqn:Efn; [reflexivity |].
  rewrite (Hnot e w' eq_refl). reflexivity.
Qed.

Lemma retry_passes_through_witness :
  retry (axios_get GetCoinsList) 3 10000
    (Sample.world [] [] (fun _ _ => Failed (Some 500)))
  = (Throw (AxiosError (Some 500)),
     withTrace (Sample.world [] [] (fun _ _ => Failed (Some 500))) [Http GetCoinsList]).
Proof.
  apply (retry_passes_through (axios_get GetCoinsList) 2 10000
           (Sample.world [] [] (fun _ _ => Failed (Some 500)))).
  intros e w' H. vm_compute in H. injection H as <- _. reflexivity.
Defined.

Lemma retry_loop_throttled_step {A} (fn : M A) (retries : nat) (delay : Z)
  (i remaining : nat) (w w1 : World) :
  fn w = (Throw (AxiosError (Some 429)), w1) ->
  i <> (retries - 1)%nat ->
  retry_loop fn retries delay i (S remaining) w
  = retry_loop fn retries delay (S i) remaining
      (snd (sleep (delay * 2 ^ Z.of_nat i) w1)).
Proof.
  intros Efn Hi. cbn [retry_loop]. unfold tryCatch at 1. rewrite Efn.
  cbn [is429 statusOf negb orb Z.eqb Pos.eqb].
  replace (Nat.eqb i (retries - 1)) with false by (symmetry; apply Nat.eqb_neq; exact Hi).
  reflexivity.
Qed.

Lemma retry_loop_returns {A} (fn : M A) (retries : nat) (delay : Z)
  (i remaining : nat) (w w1 : World) (a : A) :
  fn w = (Ok a, w1) ->
  retry_loop fn retries delay i (S remaining) w = (Ok a, w1).
Proof. intros Efn. cbn [retry_loop]. unfold tryCatch. rewrite Efn. reflexivity. Qed.

Lemma requests_after_sleep (ms : Z) (w : World) :
  requests (snd (sleep ms w)) = requests w.
Proof.
  unfold requests, sleep. cbn [snd trace withClock withTrace].
  rewrite flat_map_app. cbn [flat_map]. rewrite app_nil_r. reflexivity.
Qed.

Lemma sleeps_withTrace_http (w : World) (r : Request) :
  sleeps (withTrace w (trace w ++ [Http r])) = sleeps w.
Proof.
  unfold sleeps. cbn [trace withTrace]. rewrite flat_map_app.
  cbn [flat_map]. rewrite app_nil_r. reflexivity.
Qed.

Section HistoryAttempt.
Variables (coinId : string) (days : number).

(** One attempt of [fetchCoinHistory], as handed to [retry]. *)
Let attempt : M (list HistoricalPricePoint) :=
  response <- axios_get (GetMarketChart coinId days) ;;
  match response with
  | MarketChart data =>
      let prices := match data with Some l => l | None => [] end in
      ret (map (fun '(t, p) => {| timestamp := t; price := p |}) prices)
  | _ => throw TypeError
  end.

Lemma attempt_throttled (w : World) (n : nat) :
  length (requests w) = n ->
  provider w n (GetMarketChart coinId days) = Failed (Some 429) ->
  attempt w = (Throw (AxiosError (Some 429)),
               withTrace w (trace w ++ [Http (GetMarketChart coinId days)])).
Proof.
  intros Hn Hp. unfold attempt, bind, axios_get. rewrite Hn, Hp. reflexivity.
Qed.

Lemma attempt_served (w : World) (n : nat) (data : option (list (number * number))) :
  length (requests w) = n ->
  provider w n (GetMarketChart coinId days) = MarketChart data ->
  attempt w =
  (Ok (map (fun '(t, p) => {| timestamp := t; price := p |})
         (match data with Some l => l | None => [] end)),
   withTrace w (trace w ++ [Http (GetMarketChart coinId days)])).
Proof.
  intros Hn Hp. unfold attempt, bind, axios_get. rewrite Hn, Hp. reflexivity.
Qed.

(** X3. [fetchCoinHistory] recovers from throttling. When the provider
    answers 429 to the first [k] attempts, [k] being 0, 1 or 2, and then
    serves the chart, the call returns the chart's points in order (none
    when the body has no [prices]), after [k + 1] requests and sleeps of
    10 s and 20 s as far as needed. *)
Theorem history_fetch_recovers (w : World) (k : nat)
  (data : option (list (number * number))) :
  (k <= 2)%nat ->
  (forall j, (j < k)%nat ->
     provider w (length (requests w) + j) (GetMarketChart coinId days)
     = Failed (Some 429)) ->
  provider w (length (requests w) + k) (GetMarketChart coinId days) = MarketChart data ->
  exists w',
    fetchCoinHistory coinId days w
    = (Ok (map (fun '(t, p) => {| timestamp := t; price := p |})
             (match data with Some l => l | None => [] end)), w')
    /\ requests w' = (requests w ++ repeat (GetMarketChart coinId days) (S k))%list
    /\ sleeps w' = (sleeps w ++ firstn k [10000; 20000])%list.
Proof.
  intros Hk Hfail Hserve.
  change (fetchCoinHistory coinId days) with (retry attempt 3 10000).
  unfold retry.
  set (rq := GetMarketChart coinId days) in *.
  destruct k as [| [| [| k]]]; [| | | lia].
  - rewrite Nat.add_0_r in Hserve.
    rewrite (retry_loop_returns _ _ _ _ _ _ _ _ (attempt_served w _ data eq_refl Hserve)).
    eexists. split; [reflexivity |]. split.
    + apply requests_withTrace.
    + cbn [firstn]. rewrite app_nil_r. apply sleeps_withTrace_http.
  - pose proof (Hfail 0%nat ltac:(lia)) as H0. rewrite Nat.add_0_r in H0.
    rewrite (retry_loop_throttled_step _ _ _ _ _ _ _ (attempt_throttled w _ eq_refl H0))
      by discriminate.
    set (w1 := snd (sleep (10000 * 2 ^ Z.of_nat 0)
                      (withTrace w (trace w ++ [Http rq])))).
    assert (Hr1 : requests w1 = (requests w ++ [rq])%list)
      by (unfold w1; rewrite requests_after_sleep; apply requests_withTrace).
    assert (Hn1 : length (requests w1) = (length (requests w) + 1)%nat)
      by (rewrite Hr1, length_app; reflexivity).
    rewrite (retry_loop_returns _ _ _ _ _ _ _ _ (attempt_served w1 _ data Hn1 Hserve)).
    eexists. split; [reflexivity |]. split.
    + rewrite requests_withTrace, Hr1, <- app_assoc. reflexivity.
    + rewrite sleeps_withTrace_http. unfold w1.
      rewrite sleeps_after_sleep, sleeps_withTrace_http. reflexivity.
  - pose proof (Hfail 0%nat ltac:(lia)) as H0. rewrite Nat.add_0_r in H0.
    pose proof (Hfail 1%nat ltac:(lia)) as H1.
    rewrite (retry_loop_throttled_step _ _ _ _ _ _ _ (attempt_throttled w _ eq_refl H0))
      by discriminate.
    set (w1 := snd (sleep (10000 * 2 ^ Z.of_nat 0)
                      (withTrace w (trace w ++ [Http rq])))).
    assert (Hr1 : requests w1 = (requests w ++ [rq])%list)
      by (unfold w1; rewrite requests_after_sleep; apply requests_withTrace).
    assert (Hn1 : length (requests w1) = (length (requests w) + 1)%nat)
      by (rewrite Hr1, length_app; reflexivity).
    rewrite (retry_loop_throttled_step _ _ _ _ _ _ _ (attempt_throttled w1 _ Hn1 H1))
      by discriminate.
    set (w2 := snd (sleep (10000 * 2 ^ Z.of_nat 1)
                      (withTrace w1 (trace w1 ++ [Http rq])))).
    assert (Hr2 : requests w2 = (requests w ++ [rq; rq])%list)
      by (unfold w2; rewrite requests_after_sleep, requests_withTrace, Hr1,
            <- app_assoc; reflexivity).
    assert (Hn2 : length (requests w2) = (length (requests w) + 2)%nat)
      by (rewrite Hr2, length_app; reflexivity).
    rewrite (retry_loop_returns _ _ _ _ _ _ _ _ (attempt_served w2 _ data Hn2 Hserve)).
    eexists. split; [reflexivity |]. split.
    + rewrite requests_withTrace, Hr2, <- app_assoc. reflexivity.
    + rewrite sleeps_withTrace_http. unfold w2.
      rewrite sleeps_after_sleep, sleeps_withTrace_http. unfold w1.
      rewrite sleeps_after_sleep, sleeps_withTrace_http, <- app_assoc. reflexivity.
Qed.
End HistoryAttempt.

Lemma history_fetch_recovers_witness :
  let once := fun (n : nat) (_ : Request) =>
                if Nat.ltb n 1 then Failed (Some 429)
                else MarketChart (Some [(ofZ 1704067200000, parseFloat "42000.5");
                                        (ofZ 1704153600000, parseFloat "43000")]) in
  exists w',
    fetchCoinHistory "bitcoin" (ofZ 30) (Sample.world [] [] once)
    = (Ok [ {| timestamp := ofZ 1704067200000; price := parseFloat "42000.5" |};
            {| timestamp := ofZ 1704153600000; price := parseFloat "43000" |} ], w')
    /\ requests w' = [GetMarketChart "bitcoin" (ofZ 30); GetMarketChart "bitcoin" (ofZ 30)]
    /\ sleeps w' = [10000].
Proof.
  cbv zeta.
  apply (history_fetch_recovers "bitcoin" (ofZ 30)
           (Sample.world [] []
              (fun (n : nat) (_ : Request) =>
                 if Nat.ltb n 1 then Failed (Some 429)
                 else MarketChart (Some [(ofZ 1704067200000, parseFloat "42000.5");
                                         (ofZ 1704153600000, parseFloat "43000")])))
           1%nat
           (Some [(ofZ 1704067200000, parseFloat "42000.5");
                  (ofZ 1704153600000, parseFloat "43000")])).
  - lia.
  - intros j Hj. assert (j = 0%nat) as -> by lia. reflexivity.
  - reflexivity.
Defined.

(** ** searchCoin *)

Lemma getCached_fresh (key : string) (w : World) (store : gmap string CacheEntry)
  (e : CacheEntry) :
  redis w = Some store ->
  redisAvailable w = true ->
  store !! key = Some e ->
  clock w < expiresAt e ->
  getCached key w = (Ok (value e), w).
Proof.
  intros Hredis Hup Hkey Hfresh.
  unfold getCached. rewrite Hredis.
  unfold tryCatch, bind, redis_get, ret. rewrite Hup, Hkey.
  replace (clock w <? expiresAt e) with true by (symmetry; apply Z.ltb_lt; exact Hfresh).
  reflexivity.
Qed.

Lemma searchCoin_served_from_cache (query : string) (w : World)
  (store : gmap string CacheEntry) (e : CacheEntry) (md : CoinMarketData.t) :
  redis w = Some store ->
  redisAvailable w = true ->
  store !! getCacheKey "search" [normalize query] = Some e ->
  value e = Some md ->
  clock w < expiresAt e ->
  searchCoin query w = (Ok (Some md), w).
Proof.
  intros Hredis Hup Hkey Hvalue Hfresh.
  unfold searchCoin, tryCatch at 1, bind at 1.
  fold (normalize query).
  rewrite (getCached_fresh _ w store e Hredis Hup Hkey Hfresh), Hvalue.
  reflexivity.
Qed.

(** X4. A search whose key holds an unexpired market record is answered
    from the cache: the record is returned and the world is left as it
    was, so no request goes to the provider. *)
Theorem searchCoin_cache_hit (query : string) (w : World)
  (store : gmap string CacheEntry) (e : CacheEntry) (md : CoinMarketData.t) :
  redis w = Some store ->
  redisAvailable w = true ->
  store !! getCacheKey "search" [normalize query] = Some e ->
  value e = Some md ->
  clock w < expiresAt e ->
  searchCoin query w = (Ok (Some md), w)
  /\ requests (snd (searchCoin query w)) = requests w.
Proof.
  intros Hredis Hup Hkey Hvalue Hfresh.
  rewrite (searchCoin_served_from_cache query w store e md) by assumption.
  split; reflexivity.
Qed.

Lemma searchCoin_cache_hit_witness :
  let entry := {| value := Some Sample.bitcoinMarket;
                  expiresAt := Sample.midnight + 1000 |} in
  let w := {| coinsTable := []; historicalPricesTable := []; dbAvailable := true;
              redis := Some {[ "crypto:search:bitcoin" := entry ]};
              redisAvailable := true; provider := Sample.throttling;
              clock := Sample.midnight; trace := [] |} in
  searchCoin "  Bitcoin " w = (Ok (Some Sample.bitcoinMarket), w)
  /\ requests (snd (searchCoin "  Bitcoin " w)) = requests w.
Proof.
  intros entry w.
  apply (searchCoin_cache_hit "  Bitcoin " w
           {[ "crypto:search:bitcoin" := entry ]} entry Sample.bitcoinMarket).
  - reflexivity.
  - reflexivity.
  - vm_compute. reflexivity.
  - reflexivity.
  - vm_compute. reflexivity.
Defined.

(** X5. A search that finds a coin caches its market record: an
    immediately repeated search returns the same record and sends no
    further request. The first search sends exactly two, for the index and
    for the market record of the matched entry. *)
Theorem searchCoin_found_then_cached (query : string) (w : World)
  (store : gmap string CacheEntry) (l : list CoinIndex.t) (coin : CoinIndex.t)
  (md : CoinMarketData.t) (rest : list CoinMarketData.t) :
  redis w = Some store ->
  redisAvailable w = true ->
  getCached (getCacheKey "search" [normalize query]) w = (Ok None, w) ->
  provider w (length (requests w)) GetCoinsList = CoinsList l ->
  findCoin (normalize query) l = Some coin ->
  provider w (S (length (requests w))) (GetCoinsMarkets (CoinIndex.id coin))
  = Markets (md :: rest) ->
  exists w1,
    searchCoin query w = (Ok (Some md), w1)
    /\ requests w1 = (requests w ++ [GetCoinsList; GetCoinsMarkets (CoinIndex.id coin)])%list
    /\ searchCoin query w1 = (Ok (Some md), w1).
Proof.
  intros Hredis Hup Hmiss Hindex Hfind Hmarkets.
  set (key := getCacheKey "search" [normalize query]) in *.
  set (entry := {| value := Some md; expiresAt := clock w + 3600000 |}).
  set (w1 := withRedis
               (withTrace (withTrace w (trace w ++ [Http GetCoinsList]))
                  (trace (withTrace w (trace w ++ [Http GetCoinsList]))
                   ++ [Http (GetCoinsMarkets (CoinIndex.id coin))]))
               (Some (<[key := entry]> store))).
  assert (Hfirst : searchCoin query w = (Ok (Some md), w1)).
  { unfold searchCoin, tryCatch at 1, bind at 1.
    fold (normalize query). fold key. rewrite Hmiss.
    unfold bind at 1, axios_get at 1. rewrite Hindex, Hfind.
    unfold bind at 1, axios_get at 1.
    rewrite requests_withTrace, length_app, Nat.add_1_r.
    cbn [provider withTrace]. rewrite Hmarkets.
    cbn [List.head].
    unfold bind at 1, setCached. cbn [redis withTrace]. rewrite Hredis.
    unfold tryCatch, redis_setex. cbn [redisAvailable withTrace clock].
    rewrite Hup. reflexivity. }
  exists w1. split; [exact Hfirst |]. split.
  - unfold requests, w1. cbn [trace withRedis withTrace].
    rewrite !flat_map_app, <- app_assoc. reflexivity.
  - apply (searchCoin_served_from_cache query w1 (<[key := entry]> store) entry md).
    + reflexivity.
    + exact Hup.
    + apply lookup_insert_eq.
    + reflexivity.
    + unfold w1, entry. cbn [clock withRedis withTrace expiresAt]. lia.
Qed.

Lemma searchCoin_found_then_cached_witness :
  exists w1,
    searchCoin "btc" (Sample.world [] [] Sample.healthy)
    = (Ok (Some Sample.bitcoinMarket), w1)
    /\ requests w1 = [GetCoinsList; GetCoinsMarkets "bitcoin"]
    /\ searchCoin "btc" w1 = (Ok (Some Sample.bitcoinMarket), w1).
Proof.
  apply (searchCoin_found_then_cached "btc" (Sample.world [] [] Sample.healthy)
           ∅ [Sample.bitcoinEntry] Sample.bitcoinEntry Sample.bitcoinMarket []).
  - reflexivity.
  - reflexivity.
  - vm_compute. reflexivity.
  - reflexivity.
  - vm_compute. reflexivity.
  - reflexivity.
Defined.

(** X6. A provider failure during a search, whether on the index or on
    the market record of the matched entry, makes [searchCoin] return
    [null]; the error does not escape and nothing is written to the
    cache, so the next search asks the provider again. *)
Theorem searchCoin_provider_failure (query : string) (w : World) (status : option Z) :
  getCached (getCacheKey "search" [normalize query]) w = (Ok None, w) ->
  provider w (length (requests w)) GetCoinsList = Failed status
  \/ (exists l coin,
        provider w (length (requests w)) GetCoinsList = CoinsList l
        /\ findCoin (normalize query) l = Some coin
        /\ provider w (S (length (requests w))) (GetCoinsMarkets (CoinIndex.id coin))
           = Failed status) ->
  fst (searchCoin query w) = Ok None
  /\ redis (snd (searchCoin query w)) = redis w
  /\ exists sent, sent <> [] /\ requests (snd (searchCoin query w)) = (requests w ++ sent)%list.
Proof.
  intros Hmiss [Hindex | (l & coin & Hindex & Hfind & Hmarkets)].
  - assert (E : searchCoin query w = (Ok None, withTrace w (trace w ++ [Http GetCoinsList]))).
    { unfold searchCoin, tryCatch at 1, bind at 1.
      fold (normalize query). rewrite Hmiss.
      unfold bind at 1, axios_get at 1. rewrite Hindex. reflexivity. }
    rewrite E. split; [reflexivity |]. split; [reflexivity |].
    exists [GetCoinsList]. split; [discriminate |]. apply requests_withTrace.
  - assert (E : searchCoin query w =
                (Ok None,
                 withTrace (withTrace w (trace w ++ [Http GetCoinsList]))
                   (trace (withTrace w (trace w ++ [Http GetCoinsList]))
                    ++ [Http (GetCoinsMarkets (CoinIndex.id coin))]))).
    { unfold searchCoin, tryCatch at 1, bind at 1.
      fold (normalize query). rewrite Hmiss.
      unfold bind at 1, axios_get at 1. rewrite Hindex, Hfind.
      unfold bind at 1, axios_get at 1.
      rewrite requests_withTrace, length_app, Nat.add_1_r.
      cbn [provider withTrace]. rewrite Hmarkets. reflexivity. }
    rewrite E. split; [reflexivity |]. split; [reflexivity |].
    exists [GetCoinsList; GetCoinsMarkets (CoinIndex.id coin)].
    split; [discriminate |].
    unfold requests. cbn [snd trace withTrace].
    rewrite !flat_map_app, <- app_assoc. reflexivity.
Qed.

Lemma searchCoin_provider_failure_witness :
  let w := Sample.world [] [] Sample.throttling in
  fst (searchCoin "bitcoin" w) = Ok None
  /\ redis (snd (searchCoin "bitcoin" w)) = redis w
  /\ exists sent, sent <> [] /\ requests (snd (searchCoin "bitcoin" w)) = (requests w ++ sent)%list.
Proof.
  intros w.
  apply (searchCoin_provider_failure "bitcoin" w (Some 429)).
  - vm_compute. reflexivity.
  - left. reflexivity.
Defined.

(** ** The index search *)

Lemma find_split {A} (f : A -> bool) (l : list A) (x : A) :
  List.find f l = Some x ->
  exists pre post,
    l = (pre ++ x :: post)%list /\ f x = true /\ Forall (fun y => f y = false) pre.
Proof.
  induction l as [| y l IH]; [discriminate |].
  cbn [List.find]. destruct (f y) eqn:Hy.
  - intros [= <-]. exists [], l. repeat split; [exact Hy | constructor].
  - intros Hfind. destruct (IH Hfind) as (pre & post & -> & Hx & Hpre).
    exists (y :: pre), post. repeat split; [exact Hx |].
    constructor; assumption.
Qed.

Lemma find_none_Forall {A} (f : A -> bool) (l : list A) :
  List.find f l = None -> Forall (fun y => f y = false) l.
Proof.
  induction l as [| y l IH]; [constructor |].
  cbn [List.find]. destruct (f y) eqn:Hy; [discriminate |].
  intros Hfind. constructor; [exact Hy | exact (IH Hfind)].
Qed.

(** X7. What the index search returns. The entry found is the first, in
    index order, whose identifier, symbol or name equals the query; when
    there is none, it is the first whose name or symbol contains the
    query; and the search fails only when no entry matches either way. So
    an exact match further down the index wins over a partial match
    before it. *)
Theorem findCoin_first_exact_else_first_partial (lowerQuery : string)
  (l : list CoinIndex.t) :
  match findCoin lowerQuery l with
  | Some coin =>
      exists pre post,
        l = (pre ++ coin :: post)%list
        /\ ((exactMatch lowerQuery coin = true
             /\ Forall (fun e => exactMatch lowerQuery e = false) pre)
            \/ (Forall (fun e => exactMatch lowerQuery e = false) l
                /\ partialMatch lowerQuery coin = true
                /\ Forall (fun e => partialMatch lowerQuery e = false) pre))
  | None =>
      Forall (fun e => exactMatch lowerQuery e = false
                       /\ partialMatch lowerQuery e = false) l
  end.
Proof.
  unfold findCoin.
  destruct (List.find (exactMatch lowerQuery) l) as [coin |] eqn:Hexact.
  - destruct (find_split _ _ _ Hexact) as (pre & post & Hl & Hc & Hpre).
    exists pre, post. split; [exact Hl |]. left. split; assumption.
  - pose proof (find_none_Forall _ _ Hexact) as Hno.
    destruct (List.find (partialMatch lowerQuery) l) as [coin |] eqn:Hpartial.
    + destruct (find_split _ _ _ Hpartial) as (pre & post & Hl & Hc & Hpre).
      exists pre, post. split; [exact Hl |]. right. repeat split; assumption.
    + pose proof (find_none_Forall _ _ Hpartial) as Hno'.
      rewrite Forall_forall in *. intros e He. split; [apply Hno | apply Hno']; exact He.
Qed.

Lemma includes_empty (s : string) : JsString.includes s "" = true.
Proof. unfold JsString.includes. destruct (JsString.chars s); reflexivity. Qed.

Lemma toLowerCase_empty (s : string) : JsString.toLowerCase s = "" -> s = "".
Proof. destruct s; [reflexivity | discriminate]. Qed.

(** X8. A blank coin name is not rejected by the search. Every name
    contains the empty string, so a query that is empty once lower-cased
    and trimmed matches the first entry of the provider's index (the
    entries having non-empty identifier, symbol and name). *)
Theorem blank_query_matches_first_entry (query : string) (coin : CoinIndex.t)
  (l : list CoinIndex.t) :
  normalize query = "" ->
  Forall (fun e => CoinIndex.id e <> "" /\ CoinIndex.symbol e <> ""
                   /\ CoinIndex.name e <> "") (coin :: l) ->
  findCoin (normalize query) (coin :: l) = Some coin.
Proof.
  intros -> Hfields. unfold findCoin.
  assert (Hexact : List.find (exactMatch "") (coin :: l) = None).
  { induction Hfields as [| e l' (Hid & Hsym & Hname) _ IH]; [reflexivity |].
    cbn [List.find]. unfold exactMatch at 1.
    destruct (String.eqb_spec (JsString.toLowerCase (CoinIndex.id e)) "") as [E | _];
      [elim Hid; exact (toLowerCase_empty _ E) |].
    destruct (String.eqb_spec (JsString.toLowerCase (CoinIndex.symbol e)) "") as [E | _];
      [elim Hsym; exact (toLowerCase_empty _ E) |].
    destruct (String.eqb_spec (JsString.toLowerCase (CoinIndex.name e)) "") as [E | _];
      [elim Hname; exact (toLowerCase_empty _ E) |].
    exact IH. }
  rewrite Hexact. cbn [List.find]. unfold partialMatch.
  rewrite includes_empty. reflexivity.
Qed.

(** Asked for the price of nothing, the assistant quotes the first coin
    of the index. *)
Lemma blank_query_matches_first_entry_witness :
  findCoin (normalize "   ") [Sample.bitcoinEntry] = Some Sample.bitcoinEntry
  /\ answerOf (parseQuery "What is the price of  ?"
                 (Sample.world [] [] Sample.healthy))
     = Some "The current price of Bitcoin (BTC) is $45,100.25".
Proof.
  split.
  - apply (blank_query_matches_first_entry "   " Sample.bitcoinEntry []).
    + reflexivity.
    + repeat constructor; discriminate.
  - vm_compute. reflexivity.
Defined.

(** ** The cache *)

(** X9. Cache round trip. With a configured, reachable store and a
    positive time to live, a market record written by [setCached] is read
    back by [getCached] under the same key; once the time to live has
    elapsed the key reads as [null]; and the other keys read what they
    read before. *)
Theorem cache_round_trip (key : string) (v : CoinMarketData.t) (ttl : Z) (w : World)
  (store : gmap string CacheEntry) :
  redis w = Some store ->
  redisAvailable w = true ->
  0 < ttl ->
  exists w1,
    setCached key (Some v) ttl w = (Ok tt, w1)
    /\ getCached key w1 = (Ok (Some v), w1)
    /\ (forall ms, ttl * 1000 <= ms ->
          fst (getCached key (snd (sleep ms w1))) = Ok None)
    /\ (forall key', key' <> key ->
          fst (getCached key' w1) = fst (getCached key' w)).
Proof.
  intros Hredis Hup Httl.
  set (entry := {| value := Some v; expiresAt := clock w + ttl * 1000 |}).
  exists (withRedis w (Some (<[key := entry]> store))).
  split; [| split; [| split]].
  - unfold setCached. rewrite Hredis. unfold tryCatch, redis_setex.
    rewrite Hup. replace (0 <? ttl) with true by (symmetry; apply Z.ltb_lt; exact Httl).
    reflexivity.
  - apply (getCached_fresh key _ (<[key := entry]> store) entry).
    + reflexivity.
    + exact Hup.
    + apply lookup_insert_eq.
    + unfold entry. cbn [clock withRedis expiresAt]. lia.
  - intros ms Hms.
    unfold getCached, sleep. cbn [snd redis withClock withTrace withRedis].
    unfold tryCatch, bind, redis_get, ret.
    cbn [redisAvailable clock withClock withTrace withRedis]. rewrite Hup.
    rewrite lookup_insert_eq. unfold entry. cbn [expiresAt value].
    replace (clock w + ms <? clock w + ttl * 1000) with false
      by (symmetry; apply Z.ltb_ge; lia).
    reflexivity.
  - intros key' Hne.
    unfold getCached. cbn [redis withRedis]. rewrite Hredis.
    unfold tryCatch, bind, redis_get, ret.
    cbn [redisAvailable clock withRedis]. rewrite Hup.
    rewrite lookup_insert_ne by (intros E; apply Hne; symmetry; exact E).
    destruct (store !! key'); reflexivity.
Qed.

Lemma cache_round_trip_witness :
  exists w1,
    setCached "crypto:search:btc" (Some Sample.bitcoinMarket) CACHE_TTL.SEARCH
      (Sample.world [] [] Sample.healthy) = (Ok tt, w1)
    /\ getCached "crypto:search:btc" w1 = (Ok (Some Sample.bitcoinMarket), w1)
    /\ (forall ms, CACHE_TTL.SEARCH * 1000 <= ms ->
          fst (getCached "crypto:search:btc" (snd (sleep ms w1))) = Ok None)
    /\ (forall key', key' <> "crypto:search:btc" ->
          fst (getCached key' w1)
          = fst (getCached key' (Sample.world [] [] Sample.healthy))).
Proof.
  apply (cache_round_trip "crypto:search:btc" Sample.bitcoinMarket CACHE_TTL.SEARCH
           (Sample.world [] [] Sample.healthy) ∅).
  - reflexivity.
  - reflexivity.
  - reflexivity.
Defined.

Lemma append_cancel_l (p a b : string) : p ++ a = p ++ b -> a = b.
Proof.
  induction p as [| c p IH]; [trivial |].
  change (String c (p ++ a) = String c (p ++ b) -> a = b).
  intros [= H]. exact (IH H).
Qed.

Lemma append_assoc (a b c : string) : (a ++ b) ++ c = a ++ (b ++ c).
Proof.
  induction a as [| x a IH]; [reflexivity |].
  change (String x ((a ++ b) ++ c) = String x (a ++ (b ++ c))).
  rewrite IH. reflexivity.
Qed.

(** X10. Cache keys. A key made from one argument, as the search keys
    are, determines that argument: two different normalized queries never
    share a key. Keys made from several arguments do not have that
    property, since an argument may itself contain the separator: the
    arguments [a] and [b] give the key of the single argument [a:b]. *)
Theorem getCacheKey_one_argument_injective :
  (forall type a b, getCacheKey type [a] = getCacheKey type [b] -> a = b)
  /\ (forall type a b rest,
        getCacheKey type (a :: b :: rest) = getCacheKey type ((a ++ ":" ++ b) :: rest)).
Proof.
  split.
  - intros type a b H. unfold getCacheKey in H. cbn [JsString.join] in H.
    apply append_cancel_l in H. apply append_cancel_l in H.
    apply (append_cancel_l ":" a b). exact H.
  - intros type a b rest. unfold getCacheKey.
    assert (Hjoin : JsString.join ":" (a :: b :: rest)
                    = JsString.join ":" ((a ++ ":" ++ b) :: rest)).
    { destruct rest as [| c rest]; cbn [JsString.join]; [reflexivity |].
      rewrite !append_assoc. reflexivity. }
    rewrite Hjoin. reflexivity.
Qed.

Lemma getCacheKey_one_argument_injective_witness :
  getCacheKey "history" ["bitcoin"; "30"] = getCacheKey "history" ["bitcoin:30"]
  /\ (getCacheKey "search" ["btc"] = getCacheKey "search" ["btc"] -> "btc" = "btc").
Proof.
  split.
  - apply (proj2 getCacheKey_one_argument_injective "history" "bitcoin" "30" []).
  - apply (proj1 getCacheKey_one_argument_injective "search" "btc" "btc").
Defined.

(** ** The handlers and the local store *)

Lemma selectCoin_down (ident : string) (w : World) :
  dbAvailable w = false -> selectCoin ident w = (Throw DbError, w).
Proof. intros Hdb. unfold selectCoin, dbQuery. rewrite Hdb. reflexivity. Qed.

Lemma selectTopCoins_down (limit : number) (w : World) :
  dbAvailable w = false -> selectTopCoins limit w = (Throw DbError, w).
Proof.
  intros Hdb. unfold selectTopCoins, dbQuery, throw.
  destruct (truncate limit) as [n |]; [| reflexivity].
  destruct ((0 <=? n) && (n <? 2 ^ 63)); [rewrite Hdb |]; reflexivity.
Qed.

(** X13. When the database cannot be reached, no handler falls back on
    the provider: each returns its own apology and leaves the world
    untouched, so neither the cache nor the provider is consulted. *)
Theorem database_down_no_fallback (coinName : string) (days limit : number) (w : World) :
  dbAvailable w = false ->
  handlePriceQuery coinName w
  = (Ok (say "Sorry, I encountered an error while fetching the price. Please try again later."), w)
  /\ handleTrendQuery coinName days w
     = (Ok (say "Sorry, I encountered an error while fetching the trend. Please try again later."), w)
  /\ handleVolumeQuery coinName w
     = (Ok (say "Sorry, I encountered an error while fetching the volume. Please try again later."), w)
  /\ handleChangeQuery coinName w
     = (Ok (say "Sorry, I encountered an error while fetching the change. Please try again later."), w)
  /\ handleMarketCapQuery coinName w
     = (Ok (say "Sorry, I encountered an error while fetching the market cap. Please try again later."), w)
  /\ handleTopCoinsQuery limit w
     = (Ok (say "Sorry, I encountered an error while fetching the top coins. Please try again later."), w).
Proof.
  intros Hdb.
  repeat split.
  - unfold handlePriceQuery, tryCatch, bind. rewrite (selectCoin_down _ w Hdb). reflexivity.
  - unfold handleTrendQuery, tryCatch, bind. rewrite (selectCoin_down _ w Hdb). reflexivity.
  - unfold handleVolumeQuery, tryCatch, bind. rewrite (selectCoin_down _ w Hdb). reflexivity.
  - unfold handleChangeQuery, tryCatch, bind. rewrite (selectCoin_down _ w Hdb). reflexivity.
  - unfold handleMarketCapQuery, tryCatch, bind. rewrite (selectCoin_down _ w Hdb). reflexivity.
  - unfold handleTopCoinsQuery, tryCatch, bind. rewrite (selectTopCoins_down _ w Hdb). reflexivity.
Qed.

Lemma database_down_no_fallback_witness :
  let w := {| coinsTable := [Sample.bitcoin]; historicalPricesTable := [];
              dbAvailable := false; redis := Some ∅; redisAvailable := true;
              provider := Sample.healthy; clock := Sample.midnight; trace := [] |} in
  parseQuery "What is the price of Bitcoin?" w
  = (Ok (say "Sorry, I encountered an error while fetching the price. Please try again later."), w).
Proof.
  intros w.
  assert (E : parseQuery "What is the price of Bitcoin?" w = handlePriceQuery "bitcoin" w)
    by (vm_compute; reflexivity).
  rewrite E.
  apply (proj1 (database_down_no_fallback "bitcoin" (ofZ 30) (ofZ 5) w eq_refl)).
Defined.

Section OrderBy.
Context {A : Type} (before : A -> A -> bool).
Hypothesis before_asym : forall a b, before a b = true -> before b a = false.
Hypothesis before_chain :
  forall a b c, before b a = false -> before c b = false -> before c a = false.







End OrderBy.






Lemma sub_self_finite (s : bool) (m : positive) (e : Z) :
  sub (S754_finite s m e) (S754_finite s m e) = S754_zero false.
Proof.
  unfold sub, SFsub. rewrite Z.sub_diag. reflexivity.
Qed.

(** X15. A trend over a window of one row. The newest and the oldest
    price are then the same row's, and for a price that is a finite
    number other than zero the answer reports a change of [+0.00%]. *)
Theorem single_point_trend (coinName : string) (days : number) (w : World)
  (c : coins.row) (h : historicalPrices.row) (s : bool) (m : positive) (e : Z) :
  dbAvailable w = true ->
  List.find (fun r => String.eqb (coins.coingeckoId r) (JsString.toLowerCase coinName))
    (coinsTable w) = Some c ->
  selectHistory (coins.coingeckoId c) (daysAgo (clock w) days) w = (Ok [h], w) ->
  parseFloat (orZero (Some (historicalPrices.price h))) = S754_finite s m e ->
  answerOf (handleTrendQuery coinName days w)
  = Some ("Here's the " ++ toString days ++ "-day trend for " ++ coins.name c
          ++ ": The price changed from $" ++ toFixed (S754_finite s m e)
          ++ " to $" ++ toFixed (S754_finite s m e) ++ ", a +0.00% change.").
Proof.
  intros Hdb Hfind Hhistory Hprice.
  unfold handleTrendQuery, tryCatch, bind.
  rewrite (selectCoin_hit _ _ c Hdb Hfind).
  unfold currentTime. rewrite Hhistory.
  unfold answerOf, ret. cbn [fst answer map List.hd List.last].
  rewrite Hprice, sub_self_finite.
  destruct s; reflexivity.
Qed.

Lemma single_point_trend_witness :
  answerOf (handleTrendQuery "bitcoin" (ofZ 7)
              (Sample.world [Sample.bitcoin] Fixture.oneDay Sample.throttling))
  = Some "Here's the 7-day trend for Bitcoin: The price changed from $105.00 to $105.00, a +0.00% change.".
Proof.
  apply (single_point_trend "bitcoin" (ofZ 7)
           (Sample.world [Sample.bitcoin] Fixture.oneDay Sample.throttling)
           Sample.bitcoin (Sample.pricePoint 1 1 "105.0000000000")
           false 7388718138654720 (-46)).
  - reflexivity.
  - reflexivity.
  - vm_compute. reflexivity.
  - vm_compute. reflexivity.
Defined.

(** ** Query-string validation *)

Lemma SFcompare_swap (x y : number) :
  SFcompare y x = option_map CompOpp (SFcompare x y).
Proof.
  destruct x as [sx | sx | | sx mx ex], y as [sy | sy | | sy my ey];
    cbn [SFcompare option_map]; try reflexivity;
    try (destruct sx; reflexivity); try (destruct sy; reflexivity);
    try (destruct sx, sy; reflexivity).
  assert (Hm : Pos.compare_cont Eq my mx = CompOpp (Pos.compare_cont Eq mx my))
    by (rewrite Pos.compare_cont_antisym; reflexivity).
  rewrite (Z.compare_antisym ex ey), Hm.
  destruct sx, sy; cbn [CompOpp]; try reflexivity;
    destruct (ex ?= ey); cbn [CompOpp]; try reflexivity;
    rewrite ?CompOpp_involutive; reflexivity.
Qed.

(** For numbers that are not NaN, [not (x < y)] is [y <= x]. *)
Lemma not_lessThan_leb (x y : number) :
  isNaN x = false -> isNaN y = false -> lessThan x y = false -> SFleb y x = true.
Proof.
  intros Hx Hy Hlt. unfold lessThan, SFltb in Hlt. unfold SFleb.
  rewrite (SFcompare_swap x y).
  destruct (SFcompare x y) as [[] |] eqn:Hc; cbn [option_map CompOpp];
    try reflexivity; try discriminate Hlt.
  destruct x as [sx | sx | | sx mx ex], y as [sy | sy | | sy my ey];
    try discriminate Hx; try discriminate Hy; cbn [SFcompare] in Hc; discriminate Hc.
Qed.

Lemma accepted_within (x lo hi : number) :
  isNaN lo = false -> isNaN hi = false ->
  isNaN x || lessThan x lo || lessThan hi x = false ->
  SFleb lo x = true /\ SFleb x hi = true.
Proof.
  intros Hlo Hhi H.
  apply Bool.orb_false_iff in H. destruct H as [H Hhi'].
  apply Bool.orb_false_iff in H. destruct H as [Hx Hlo'].
  split; apply not_lessThan_leb; assumption.
Qed.

(** X16. The window of [GET /api/coins]. Whenever the validation lets a
    request through, the limit handed to the database lies between 1 and
    100. A [top] parameter that parses to 0 or to no number at all is not
    rejected, though: it counts as absent, and the request is served with
    the page parameters or the default window. *)
Theorem coins_page_window_bounds :
  (forall top page pageSize limit offset,
      coinsPageWindow top page pageSize = PageWindow limit offset ->
      SFleb (ofZ 1) limit = true /\ SFleb limit (ofZ 100) = true)
  /\ (forall top page pageSize,
        truthy (parseInt top) = false ->
        coinsPageWindow (Some top) page pageSize = coinsPageWindow None page pageSize).
Proof.
  split.
  - intros top page pageSize limit offset.
    unfold coinsPageWindow. cbv zeta.
    assert (Hpages :
      match queryInt page, queryInt pageSize with
      | Some p, Some ps =>
          if isNaN p || lessThan p (ofZ 1) then
            BadRequest "Invalid 'page' parameter. Must be a number >= 1."
          else if isNaN ps || lessThan ps (ofZ 1) || lessThan (ofZ 100) ps then
            BadRequest "Invalid 'pageSize' parameter. Must be a number between 1 and 100."
          else PageWindow ps (mul (sub p (ofZ 1)) ps)
      | _, _ => PageWindow (ofZ 50) zero
      end = PageWindow limit offset ->
      SFleb (ofZ 1) limit = true /\ SFleb limit (ofZ 100) = true).
    { destruct (queryInt page) as [p |], (queryInt pageSize) as [ps |];
        try (intros [= <- _]; split; vm_compute; reflexivity).
      destruct (isNaN p || lessThan p (ofZ 1)); [discriminate |].
      destruct (isNaN ps || lessThan ps (ofZ 1) || lessThan (ofZ 100) ps) eqn:Hps;
        [discriminate |].
      intros [= <- _]. apply accepted_within; [reflexivity | reflexivity | exact Hps]. }
    destruct (queryInt top) as [t |]; [| exact Hpages].
    destruct (truthy t); [| exact Hpages].
    destruct (isNaN t || lessThan t (ofZ 1) || lessThan (ofZ 100) t) eqn:Ht;
      [discriminate |].
    intros [= <- _]. apply accepted_within; [reflexivity | reflexivity | exact Ht].
  - intros top page pageSize Hfalsy.
    unfold coinsPageWindow, queryInt at 1. cbv zeta.
    destruct (JsString.truthy top); [rewrite Hfalsy |]; reflexivity.
Qed.

Lemma coins_page_window_bounds_witness :
  coinsPageWindow (Some "0") None None = PageWindow (ofZ 50) zero
  /\ coinsPageWindow (Some "abc") (Some "3") (Some "20") = PageWindow (ofZ 20) (ofZ 40)
  /\ SFleb (ofZ 1) (ofZ 25) = true /\ SFleb (ofZ 25) (ofZ 100) = true.
Proof.
  split; [| split].
  - rewrite (proj2 coins_page_window_bounds "0" None None) by reflexivity.
    reflexivity.
  - rewrite (proj2 coins_page_window_bounds "abc" (Some "3") (Some "20")) by reflexivity.
    vm_compute. reflexivity.
  - apply (proj1 coins_page_window_bounds (Some "25") None None (ofZ 25) zero).
    vm_compute. reflexivity.
Defined.



(** ** The seeding batches *)

Section Batches.
Context {A : Type}.
Variables (historyRecords : list A) (batchSize : nat).
Hypothesis batchSize_pos : (0 < batchSize)%nat.

Lemma batchesFrom_concat (fuel j : nat) :
  (length historyRecords - j <= fuel)%nat ->
  concat (batchesFrom fuel historyRecords batchSize j) = skipn j historyRecords.
Proof.
  revert j. induction fuel as [| fuel IH]; intros j Hfuel; cbn [batchesFrom].
  - rewrite skipn_all2 by lia. reflexivity.
  - destruct (Nat.ltb_spec j (length historyRecords)) as [Hlt | Hge].
    + cbn [concat]. rewrite IH by lia. unfold slice.
      replace (j + batchSize - j)%nat with batchSize by lia.
      replace (j + batchSize)%nat with (batchSize + j)%nat by lia.
      rewrite <- skipn_skipn. apply firstn_skipn.
    + rewrite skipn_all2 by lia. reflexivity.
Qed.

Lemma batchesFrom_sizes (fuel j : nat) :
  Forall (fun b => (1 <= length b <= batchSize)%nat)
    (batchesFrom fuel historyRecords batchSize j).
Proof.
  revert j. induction fuel as [| fuel IH]; intros j; cbn [batchesFrom];
    [constructor |].
  destruct (Nat.ltb_spec j (length historyRecords)) as [Hlt | Hge]; [| constructor].
  constructor; [| apply IH].
  unfold slice. rewrite length_firstn, length_skipn. lia.
Qed.

Lemma batchesFrom_count (fuel j : nat) :
  (length historyRecords - j <= fuel)%nat ->
  length (batchesFrom fuel historyRecords batchSize j)
  = ((length historyRecords - j + (batchSize - 1)) / batchSize)%nat.
Proof.
  revert j. induction fuel as [| fuel IH]; intros j Hfuel; cbn [batchesFrom].
  - replace (length historyRecords - j)%nat with 0%nat by lia.
    rewrite Nat.div_small by lia. reflexivity.
  - destruct (Nat.ltb_spec j (length historyRecords)) as [Hlt | Hge].
    + cbn [length]. rewrite IH by lia.
      destruct (Nat.leb_spec (length historyRecords - j) batchSize) as [Hle | Hgt].
      * replace (length historyRecords - (j + batchSize))%nat with 0%nat by lia.
        cbn [Nat.add]. rewrite (Nat.div_small (batchSize - 1)) by lia.
        apply (Nat.div_unique _ _ 1 (length historyRecords - j - 1)); lia.
      * replace (length historyRecords - j + (batchSize - 1))%nat
          with (length historyRecords - (j + batchSize) + (batchSize - 1) + 1 * batchSize)%nat
          by lia.
        rewrite Nat.div_add by lia. lia.
    + replace (length historyRecords - j)%nat with 0%nat by lia.
      rewrite Nat.div_small by lia. reflexivity.
Qed.
End Batches.

(** X19. The seeding script inserts a coin's history in batches of 100.
    The batches, put end to end, are the history records in their order,
    nothing lost and nothing twice; each batch holds between 1 and 100
    records; and there are as many batches as hundreds started. *)
Theorem history_batches_partition {A} (historyRecords : list A) :
  concat (historyBatches historyRecords) = historyRecords
  /\ Forall (fun b => (1 <= length b <= 100)%nat) (historyBatches historyRecords)
  /\ length (historyBatches historyRecords) = ((length historyRecords + 99) / 100)%nat.
Proof.
  unfold historyBatches. split; [| split].
  - rewrite batchesFrom_concat by lia. reflexivity.
  - apply batchesFrom_sizes; lia.
  - rewrite batchesFrom_count by lia. rewrite Nat.sub_0_r. reflexivity.
Qed.

(** ** Normalization of the query *)

Lemma chars_ofChars (l : list ascii) : JsString.chars (JsString.ofChars l) = l.
Proof. apply list_ascii_of_string_of_list_ascii. Qed.

Lemma ofChars_chars (s : string) : JsString.ofChars (JsString.chars s) = s.
Proof. apply string_of_list_ascii_of_string. Qed.
















(** ** The chat route *)



(** ** Price questions *)

Lemma rmatch_lazy_dots (s : list ascii) (c : captures) (k : cont) :
  rmatch (PlusLazy Dot) s c k = lazyDots k (S (length s)) s c.
Proof. reflexivity. Qed.

(** The lazy loop stops at the first place where the continuation
    succeeds. *)
Lemma lazyDots_stop_at_first (K : cont) (b : list ascii) (c r : captures) :
  K b c = Some r ->
  forall a fuel, (length a <= fuel)%nat ->
  a <> [] -> Forall (fun x => JsString.isLineTerminator x = false) a ->
  (forall a1 a2, a = (a1 ++ a2)%list -> a1 <> [] -> a2 <> [] ->
                 K (a2 ++ b)%list c = None) ->
  lazyDots K fuel (a ++ b)%list c = Some r.
Proof.
  intros HK a.
  induction a as [| x a IH]; intros fuel Hfuel Ha Hdots Hnone; [elim Ha; reflexivity |].
  destruct fuel as [| fuel]; [cbn [length] in Hfuel; lia |].
  inversion Hdots as [| ? ? Hx Hdots']; subst.
  cbn [lazyDots rmatch app]. rewrite Hx.
  destruct a as [| y a].
  - cbn [app]. rewrite HK. reflexivity.
  - rewrite (Hnone [x] (y :: a) eq_refl) by discriminate.
    cbn [orElse]. apply IH.
    + cbn [length] in *. lia.
    + discriminate.
    + exact Hdots'.
    + intros a1 a2 E H1 H2.
      apply (Hnone (x :: a1) a2); [rewrite E; reflexivity | discriminate | exact H2].
Qed.

Lemma rmatch_literal (p s : list ascii) (c : captures) (k : cont) :
  rmatch (fold_right (fun x r => Cat (Lit x) r) Empty p) (p ++ s)%list c k = k s c.
Proof.
  induction p as [| x p IH]; [reflexivity |].
  cbn [fold_right rmatch app]. rewrite Ascii.eqb_refl. exact IH.
Qed.

Lemma chars_append (a b : string) :
  JsString.chars (a ++ b) = (JsString.chars a ++ JsString.chars b)%list.
Proof.
  induction a as [| x a IH]; [reflexivity |].
  change (x :: JsString.chars (a ++ b) = x :: (JsString.chars a ++ JsString.chars b)%list).
  rewrite IH. reflexivity.
Qed.

Lemma trimChars_fixed (x y : ascii) (l : list ascii) :
  JsString.isSpace x = false -> JsString.isSpace y = false ->
  JsString.trimChars (x :: l ++ [y]) = (x :: l ++ [y])%list.
Proof.
  intros Hx Hy. unfold JsString.trimChars.
  cbn [JsString.dropSpaces]. rewrite Hx.
  change (x :: l ++ [y])%list with ((x :: l) ++ [y])%list.
  rewrite rev_app_distr. cbn [rev app JsString.dropSpaces]. rewrite Hy.
  change (y :: (rev l ++ [x]))%list with ([y] ++ rev (x :: l))%list.
  rewrite rev_app_distr, rev_involutive. reflexivity.
Qed.

Lemma question_mark_only (y : ascii) :
  Ascii.eqb (JsString.upperChar "?") (JsString.upperChar (JsString.lowerChar y))
  = Ascii.eqb "?" y.
Proof. destruct y as [[] [] [] [] [] [] [] []]; reflexivity. Qed.

Lemma isLineTerminator_lowerChar (y : ascii) :
  JsString.isLineTerminator (JsString.lowerChar y) = JsString.isLineTerminator y.
Proof. destruct y as [[] [] [] [] [] [] [] []]; reflexivity. Qed.

(** The tail [(.+?)(?:\?|$)] on a name followed by a question mark. *)
Lemma coinTail_question (name : list ascii) :
  name <> [] ->
  Forall (fun x => x <> "?"%char /\ JsString.isLineTerminator x = false) name ->
  rmatch (coinTail 1) (map JsString.lowerChar name ++ ["?"%char])%list []
    (fun _ c => Some c)
  = Some [(1%nat, map JsString.lowerChar name)].
Proof.
  intros Hname Hchars.
  set (lname := map JsString.lowerChar name).
  unfold coinTail. cbn [rmatch].
  change (lazyDots
            (fun s' c' =>
               orElse
                 (rmatch (Lit "?") s' ((1%nat, consumed (lname ++ ["?"%char])%list s') :: c')
                    (fun _ c => Some c))
                 (fun _ =>
                    rmatch EndOfInput s'
                      ((1%nat, consumed (lname ++ ["?"%char])%list s') :: c')
                      (fun _ c => Some c)))
            (S (length (lname ++ ["?"%char])%list)) (lname ++ ["?"%char])%list []
          = Some [(1%nat, lname)]).
  apply lazyDots_stop_at_first.
  - cbn [rmatch orElse]. rewrite Ascii.eqb_refl.
    unfold consumed. rewrite length_app. cbn [length].
    replace (length lname + 1 - 1)%nat with (length lname + 0)%nat by lia.
    rewrite firstn_app_2. cbn [firstn]. rewrite app_nil_r. reflexivity.
  - rewrite length_app. lia.
  - unfold lname. destruct name; [elim Hname; reflexivity | discriminate].
  - unfold lname. apply Forall_map. eapply Forall_impl; [exact Hchars |].
    intros x [_ Hx]. cbn beta. rewrite isLineTerminator_lowerChar. exact Hx.
  - intros a1 a2 E _ Ha2.
    destruct a2 as [| y a2]; [elim Ha2; reflexivity |].
    assert (Hy : exists y0, y = JsString.lowerChar y0 /\ y0 <> "?"%char).
    { assert (Hin : In y lname) by (rewrite E; apply in_or_app; right; left; reflexivity).
      unfold lname in Hin. apply in_map_iff in Hin. destruct Hin as (y0 & <- & Hy0).
      exists y0. split; [reflexivity |].
      rewrite Forall_forall in Hchars.
      apply (Hchars y0). apply list_elem_of_In. exact Hy0. }
    destruct Hy as (y0 & -> & Hy0).
    cbn [app rmatch orElse]. rewrite question_mark_only.
    destruct (Ascii.eqb_spec "?" y0) as [E' | _]; [elim Hy0; symmetry; exact E' |].
    reflexivity.
Qed.

Lemma search_first (r : regex) (s : list ascii) (c : captures) :
  matchAt r s = Some c -> search r s = Some c.
Proof. intros H. destruct s; cbn [search]; rewrite H; reflexivity. Qed.

Lemma pricePattern_question (polite : bool) (name : list ascii) :
  name <> [] ->
  Forall (fun x => x <> "?"%char /\ JsString.isLineTerminator x = false) name ->
  matchAt pricePattern
    (JsString.chars (if polite then "what is the price of " else "price of ")
     ++ map JsString.lowerChar name ++ ["?"%char])%list
  = Some [(1%nat, map JsString.lowerChar name)].
Proof.
  intros Hname Hchars.
  pose proof (coinTail_question name Hname Hchars) as Htail.
  unfold matchAt, pricePattern, Str.
  cbn [rmatch].
  destruct polite.
  - change (JsString.chars "what is the price of ")
      with (JsString.chars "what is the " ++ JsString.chars "price of ")%list.
    rewrite <- app_assoc, rmatch_literal, rmatch_literal, Htail. reflexivity.
  - change (rmatch (fold_right (fun x r => Cat (Lit x) r) Empty (JsString.chars "what is the "))
              (JsString.chars "price of " ++ map JsString.lowerChar name ++ ["?"%char])%list []
              (fun s' c' =>
                 rmatch (fold_right (fun x r => Cat (Lit x) r) Empty (JsString.chars "price of "))
                   s' c' (fun s'0 c'0 => rmatch (coinTail 1) s'0 c'0 (fun _ c => Some c))))
      with (@None captures).
    cbn [orElse]. rewrite rmatch_literal, Htail. reflexivity.
Qed.

(** X12. A price question is understood for what it asks. For every
    name that is not empty and contains neither a question mark nor a
    line break, the texts ["What is the price of <name>?"] and
    ["price of <name>?"] are Price queries for that name, lower-cased and
    trimmed: [parseQuery] hands exactly that to [handlePriceQuery]. *)
Theorem price_question_understood (polite : bool) (name : string) :
  name <> "" ->
  Forall (fun x => x <> "?"%char /\ JsString.isLineTerminator x = false)
    (JsString.chars name) ->
  parseQuery ((if polite then "What is the " else "") ++ "price of " ++ name ++ "?")
  = handlePriceQuery (JsString.trim (JsString.toLowerCase name)).
Proof.
  intros Hname Hchars.
  assert (Hnonempty : JsString.chars name <> []).
  { destruct name; [elim Hname; reflexivity | discriminate]. }
  set (text := (if polite then "What is the " else "") ++ "price of " ++ name ++ "?").
  set (lname := map JsString.lowerChar (JsString.chars name)).
  assert (Hnorm :
    normalize text =
    JsString.ofChars
      (JsString.chars (if polite then "what is the price of " else "price of ")
       ++ lname ++ ["?"%char])%list).
  { unfold normalize, JsString.trim, JsString.toLowerCase, text.
    rewrite chars_ofChars, !chars_append, !map_app. fold lname. f_equal.
    destruct polite.
    - apply (trimChars_fixed "w" "?"
               (JsString.chars "hat is the price of " ++ lname)%list); reflexivity.
    - apply (trimChars_fixed "p" "?"
               (JsString.chars "rice of " ++ lname)%list); reflexivity. }
  unfold parseQuery. cbv zeta. fold (normalize text). rewrite Hnorm.
  unfold exec at 1, lname. rewrite chars_ofChars.
  rewrite (search_first _ _ _ (pricePattern_question polite _ Hnonempty Hchars)).
  reflexivity.
Qed.

Lemma price_question_understood_witness :
  parseQuery "What is the price of Shiba Inu?" = handlePriceQuery "shiba inu"
  /\ parseQuery "price of BTC ?" = handlePriceQuery "btc".
Proof.
  split.
  - apply (price_question_understood true "Shiba Inu").
    + discriminate.
    + repeat constructor; discriminate.
  - apply (price_question_understood false "BTC ").
    + discriminate.
    + repeat constructor; discriminate.
Defined.

(** ** Trend queries on a local coin *)



(** ** A provider record without the figure asked for *)

(** X21. When the coin is not in the local store and the provider's
    record has [null] for the figure asked for, the handler does not say
    that the coin was not found, nor does it fail: reading the figure
    throws inside the [try], and the answer is the handler's apology. *)
Theorem provider_record_without_figure (coinName : string) (w : World)
  (md : CoinMarketData.t) :
  dbAvailable w = true ->
  (forall c, In c (coinsTable w) ->
             coins.coingeckoId c <> JsString.toLowerCase coinName) ->
  fst (searchCoin coinName w) = Ok (Some md) ->
  (CoinMarketData.current_price md = None ->
   fst (handlePriceQuery coinName w) =
   Ok (say "Sorry, I encountered an error while fetching the price. Please try again later."))
  /\ (CoinMarketData.total_volume md = None ->
      fst (handleVolumeQuery coinName w) =
      Ok (say "Sorry, I encountered an error while fetching the volume. Please try again later."))
  /\ (CoinMarketData.price_change_percentage_24h md = None ->
      fst (handleChangeQuery coinName w) =
      Ok (say "Sorry, I encountered an error while fetching the change. Please try again later."))
  /\ (CoinMarketData.market_cap md = None ->
      fst (handleMarketCapQuery coinName w) =
      Ok (say "Sorry, I encountered an error while fetching the market cap. Please try again later.")).
Proof.
  intros Hdb Hmiss Hfound.
  destruct (searchCoin coinName w) as [found w1] eqn:Esearch.
  cbn [fst] in Hfound. subst found.
  repeat split; intros Hnull.
  - unfold handlePriceQuery, tryCatch, bind.
    rewrite (selectCoin_miss _ _ Hdb Hmiss), Esearch. unfold deref. rewrite Hnull.
    reflexivity.
  - unfold handleVolumeQuery, tryCatch, bind.
    rewrite (selectCoin_miss _ _ Hdb Hmiss), Esearch. unfold deref. rewrite Hnull.
    reflexivity.
  - unfold handleChangeQuery, tryCatch, bind.
    rewrite (selectCoin_miss _ _ Hdb Hmiss), Esearch. unfold deref. rewrite Hnull.
    reflexivity.
  - unfold handleMarketCapQuery, tryCatch, bind.
    rewrite (selectCoin_miss _ _ Hdb Hmiss), Esearch. unfold deref. rewrite Hnull.
    reflexivity.
Qed.

Lemma provider_record_without_figure_witness :
  let delisted :=
    {| CoinMarketData.id := "bitcoin"; CoinMarketData.symbol := "btc";
       CoinMarketData.name := "Bitcoin"; CoinMarketData.current_price := None;
       CoinMarketData.market_cap := None;
       CoinMarketData.price_change_percentage_24h := None;
       CoinMarketData.total_volume := None;
       CoinMarketData.last_updated := "2024-01-01T00:00:00.000Z" |} in
  let w := Sample.world [] []
             (fun _ r => match r with
                         | GetCoinsList => CoinsList [Sample.bitcoinEntry]
                         | _ => Markets [delisted]
                         end) in
  fst (handlePriceQuery "bitcoin" w) =
  Ok (say "Sorry, I encountered an error while fetching the price. Please try again later.").
Proof.
  intros delisted w.
  apply (proj1 (provider_record_without_figure "bitcoin" w delisted eq_refl
                  ltac:(intros c []) ltac:(vm_compute; reflexivity))).
  reflexivity.
Defined.

(** ** The history window *)




